(** * hover: a client for the unofficial Hover DNS API

    A shallow embedding of [hover.go] and the properties of its scalar JSON
    decoders, its login handshake, its response envelope and its operations.

    Conventions of the embedding:
    - a Go [string] is a [string] (a sequence of 8-bit characters), a
      [[]byte] is a [list byte]; the conversion [string(b)] is
      [string_of_list_byte];
    - a Go [int] is a [Z]; an [int64] product is wrapped explicitly;
    - a Go [error] value is an [option error], [None] being [nil];
    - a run-time panic (index or slice out of range) is an explicit outcome;
    - a method with a pointer receiver takes the receiver's old value and
      returns its new value next to the Go results;
    - the transport, [encoding/json], [net/url], [time.Parse] and the [%#v]
      quoting of [fmt] are parameters of the development: they belong to the
      Go libraries, not to this package. *)

From Stdlib Require Import ZArith List Bool Lia.
From Stdlib Require Import Strings.String Strings.Ascii Strings.Byte.
From Stdlib Require Import DecimalString DecimalPos.
Import ListNotations.

Local Open Scope string_scope.
Local Open Scope list_scope.
Local Open Scope Z_scope.

(** ** Outcomes of Go code: a result or a run-time panic *)

Inductive panic : Type :=
| IndexOutOfRange (i n : Z)          (* index out of range [i] with length n *)
| SliceBoundsOutOfRange (lo hi : Z). (* slice bounds out of range [lo:hi] *)

Inductive outcome (A : Type) : Type :=
| Returned (a : A)
| Panicked (p : panic).

Arguments Returned {A} a.
Arguments Panicked {A} p.

Definition obind {A B : Type} (m : outcome A) (k : A -> outcome B) : outcome B :=
  match m with
  | Returned a => k a
  | Panicked p => Panicked p
  end.

Notation "x <- m ;; k" := (obind m (fun x => k))
  (at level 61, m at next level, right associativity).

Definition returns {A : Type} (m : outcome A) : Prop := exists a, m = Returned a.

(** ** Byte slices *)

Definition bytes := list byte.

(** [len(b)] *)
Definition len (b : bytes) : Z := Z.of_nat (List.length b).

(** [b[i]]: panics unless [0 <= i < len(b)]. *)
Definition index (b : bytes) (i : Z) : outcome byte :=
  if (0 <=? i) && (i <? len b) then
    match nth_error b (Z.to_nat i) with
    | Some c => Returned c
    | None => Panicked (IndexOutOfRange i (len b))
    end
  else Panicked (IndexOutOfRange i (len b)).

(** [b[lo:hi]]: panics unless [0 <= lo <= hi <= len(b)] (the slices decoded
    here are never re-sliced beyond their length). *)
Definition slice (b : bytes) (lo hi : Z) : outcome bytes :=
  if (0 <=? lo) && (lo <=? hi) && (hi <=? len b) then
    Returned (firstn (Z.to_nat (hi - lo)) (skipn (Z.to_nat lo) b))
  else Panicked (SliceBoundsOutOfRange lo hi).

(** The double-quote byte, 0x22. *)
Definition dquote : byte := x22.

(** The wire form of a JSON string literal without escapes: the content
    between two double quotes. *)
Definition quoted (content : bytes) : bytes := dquote :: content ++ [dquote].

(** Go's [a && b] on expressions that may panic: [b] is evaluated only when
    [a] is true. *)
Definition andalso (a : outcome bool) (b : outcome bool) : outcome bool :=
  x <- a ;; if x then b else Returned false.

(** ** Errors *)

(** [APIError] is the error type used for errors from the Hover API. *)
Record APIError : Type := {
  StatusCode : Z;       (* the HTTP status code *)
  ErrorCode : string;   (* the JSON error_code field *)
  ErrorMsg : string     (* the JSON error field *)
}.

(** The dynamic types an [error] value of this package can have. *)
Inductive error : Type :=
| errorString (msg : string)    (* errors.New and fmt.Errorf *)
| InvalidLogin (msg : string)   (* type InvalidLogin string *)
| APIErr (ae : APIError)        (* *APIError *)
| foreign (msg : string).       (* an error made by net/http, net/url,
                                   encoding/json or io *)

(** ** The parts of the Go library the package calls, modelled here

    [strconv.Atoi] and [strconv.Itoa] are modelled in full for a 64-bit
    [int]; [time.Parse] for the two layouts the package uses;
    [strconv.Quote] for ASCII input. *)

Module GoStrconv.

Definition isDigit (c : byte) : bool :=
  (48 <=? Z.of_N (Byte.to_N c)) && (Z.of_N (Byte.to_N c) <=? 57).

Definition digitVal (c : byte) : Z := Z.of_N (Byte.to_N c) - 48.

(** The digits of [s] read from the left onto the accumulator [n];
    [None] at the first byte that is not a decimal digit. *)
Fixpoint digits (s : bytes) (n : Z) : option Z :=
  match s with
  | [] => Some n
  | c :: s' => if isDigit c then digits s' (n * 10 + digitVal c) else None
  end.

Definition minInt : Z := - 2 ^ 63.
Definition maxInt : Z := 2 ^ 63 - 1.

(** [strconv.Atoi]: an optional sign, then one or more decimal digits, the
    value within the range of [int]; [None] stands for the [*NumError]. *)
Definition Atoi (s : string) : option Z :=
  let b := list_byte_of_string s in
  let signed (neg : bool) (ds : bytes) : option Z :=
    match ds with
    | [] => None
    | _ =>
        match digits ds 0 with
        | Some n =>
            let v := if neg then - n else n in
            if (minInt <=? v) && (v <=? maxInt) then Some v else None
        | None => None
        end
    end in
  match b with
  | [] => None
  | c :: rest =>
      if Byte.eqb c x2d then signed true rest
      else if Byte.eqb c x2b then signed false rest
      else signed false b
  end.

(** [strconv.Itoa], also the verb [%d] of [fmt] on an [int]. *)
Definition Itoa (n : Z) : string := NilZero.string_of_int (Z.to_int n).

Definition hexDigit (n : N) : ascii :=
  ascii_of_N (if (n <? 10)%N then 48 + n else 87 + n)%N.

Definition quoteByte (c : ascii) : string :=
  let n := N_of_ascii c in
  let esc (e : ascii) := String (ascii_of_N 92) (String e EmptyString) in
  if (n =? 34)%N then esc (ascii_of_N 34)
  else if (n =? 92)%N then esc (ascii_of_N 92)
  else if (n =? 7)%N then esc "a"%char
  else if (n =? 8)%N then esc "b"%char
  else if (n =? 12)%N then esc "f"%char
  else if (n =? 10)%N then esc "n"%char
  else if (n =? 13)%N then esc "r"%char
  else if (n =? 9)%N then esc "t"%char
  else if (n =? 11)%N then esc "v"%char
  else if ((n <? 32) || (126 <? n))%N then
    String (ascii_of_N 92)
      (String "x"%char
         (String (hexDigit (n / 16)) (String (hexDigit (n mod 16)) EmptyString)))
  else String c EmptyString.

Fixpoint quoteBody (s : string) : string :=
  match s with
  | EmptyString => EmptyString
  | String c s' => (quoteByte c ++ quoteBody s')%string
  end.

(** [strconv.Quote] on ASCII input, which is what [%#v] prints for a
    string.  A byte above 0x7e is written as a [\x] escape, which is what
    Go does for a byte that is not part of a valid UTF-8 sequence;
    printable non-ASCII runes are outside this model. *)
Definition Quote (s : string) : string :=
  String (ascii_of_N 34) (quoteBody s ++ String (ascii_of_N 34) EmptyString)%string.

End GoStrconv.

Module GoTime.

Import GoStrconv.

(** A [time.Time] as far as the two layouts of this package can tell
    times apart: a calendar date at midnight UTC. *)
Record Time : Type := { Year : Z; Month : Z; Day : Z }.

(** The zero [Time{}]: January 1, year 1. *)
Definition zero : Time := {| Year := 1; Month := 1; Day := 1 |}.

(** [time.Second], a [Duration] in nanoseconds. *)
Definition Second : Z := 1000000000.

Definition isLeap (year : Z) : bool :=
  (year mod 4 =? 0) && (negb (year mod 100 =? 0) || (year mod 400 =? 0)).

Definition daysIn (month year : Z) : Z :=
  if month =? 2 then (if isLeap year then 29 else 28)
  else if (month =? 4) || (month =? 6) || (month =? 9) || (month =? 11) then 30
  else 31.

(** The layout element 2006: exactly four digits. *)
Definition getyear (v : bytes) : option (Z * bytes) :=
  match v with
  | a :: b :: c :: d :: rest =>
      if isDigit a && isDigit b && isDigit c && isDigit d
      then Some (((digitVal a * 10 + digitVal b) * 10 + digitVal c) * 10
                 + digitVal d, rest)
      else None
  | _ => None
  end.

(** The layout elements 01 and 02: exactly two digits. *)
Definition getnum2 (v : bytes) : option (Z * bytes) :=
  match v with
  | a :: b :: rest =>
      if isDigit a && isDigit b
      then Some (digitVal a * 10 + digitVal b, rest)
      else None
  | _ => None
  end.

(** A literal separator of the layout. *)
Definition skip (sep : byte) (v : bytes) : option bytes :=
  match v with
  | c :: rest => if Byte.eqb c sep then Some rest else None
  | [] => None
  end.

Definition checked (year month day : Z) (rest : bytes) : option Time :=
  match rest with
  | _ :: _ => None                                  (* extra text *)
  | [] =>
      if (month <=? 0) || (12 <? month) then None   (* month out of range *)
      else if (day <? 1) || (daysIn month year <? day) then None
      else Some {| Year := year; Month := month; Day := day |}
  end.

(** Layout 2006-01-02. *)
Definition parseDate (v : bytes) : option Time :=
  match getyear v with
  | Some (y, v1) =>
      match skip x2d v1 with
      | Some v2 =>
          match getnum2 v2 with
          | Some (m, v3) =>
              match skip x2d v3 with
              | Some v4 =>
                  match getnum2 v4 with
                  | Some (d, v5) => checked y m d v5
                  | None => None
                  end
              | None => None
              end
          | None => None
          end
      | None => None
      end
  | None => None
  end.

(** Layout 2006/01; the day defaults to 1. *)
Definition parseYearMonth (v : bytes) : option Time :=
  match getyear v with
  | Some (y, v1) =>
      match skip x2f v1 with
      | Some v2 =>
          match getnum2 v2 with
          | Some (m, v3) => checked y m 1 v3
          | None => None
          end
      | None => None
      end
  | None => None
  end.

(** [time.Parse(layout, value)] for the layouts 2006-01-02 and 2006/01
    (current Go: a day of 00 is rejected).  On failure Go returns the zero
    time and a [*ParseError]; its message is abbreviated here to the part
    that does not depend on where parsing stopped.  Other layouts are
    outside this model and are answered with an error. *)
Definition Parse (layout value : string) : Time * option string :=
  let failed :=
    (zero, Some ("parsing time " ++ Quote value ++ " as " ++ Quote layout
                 ++ ": cannot parse")%string) in
  let parsed :=
    if (layout =? "2006-01-02")%string then parseDate (list_byte_of_string value)
    else if (layout =? "2006/01")%string then parseYearMonth (list_byte_of_string value)
    else None in
  match parsed with
  | Some t => (t, None)
  | None => failed
  end.

End GoTime.

(** ** Scalar types and their JSON decoders *)

(** [RecordType] is a string of a DNS record type's name; any string is
    allowed by the API. *)
Definition RecordType := string.

Definition A : RecordType := "A".
Definition AAAA : RecordType := "AAAA".
Definition CAA : RecordType := "CAA".
Definition CNAME : RecordType := "CNAME".
Definition MX : RecordType := "MX".
Definition SRV : RecordType := "SRV".
Definition TXT : RecordType := "TXT".

(** [DomainID] is a string that identifies a specific Domain. *)
Definition DomainID := string.

(** [DNSRecordID] is a string that identifies a specific DNSRecord. *)
Definition DNSRecordID := string.

(** [TTL] is a [time.Duration]: an [int64] count of nanoseconds. *)
Definition TTL := Z.

(** [Date] embeds a [time.Time]. *)
Record Date : Type := { Date_Time : GoTime.Time }.

(** [YearMonth] embeds a [time.Time]. *)
Record YearMonth : Type := { YearMonth_Time : GoTime.Time }.

(** Multiplication of [int64] wraps around. *)
Definition int64 (z : Z) : Z := (z + 2 ^ 63) mod 2 ^ 64 - 2 ^ 63.

(** What the verb [%s] prints for an [error]: its message, and the
    bad-verb marker for a nil interface. *)
Definition fmt_s (err : option string) : string :=
  match err with
  | Some msg => msg
  | None => "%!s(<nil>)"
  end.

(** [b[i] == c] *)
Definition byteIs (b : bytes) (i : Z) (c : byte) : outcome bool :=
  x <- index b i ;; Returned (Byte.eqb x c).

Section ScalarCodecs.

(** [strconv.Quote], through the verb [%#v] of [fmt]. *)
Variable Quote : string -> string.

(** [time.Parse]; the error is given by its message. *)
Variable time_Parse : string -> string -> GoTime.Time * option string.

Definition RecordType_UnmarshalJSON (rt : RecordType) (b : bytes)
  : outcome (RecordType * option error) :=
  q <- andalso (byteIs b 0 dquote) (byteIs b (len b - 1) dquote) ;;
  if q then
    b' <- slice b 1 (len b - 1) ;;
    Returned (string_of_list_byte b', None)
  else
    Returned (rt, Some (errorString
      ("unable to parse a RecordType from " ++ Quote (string_of_list_byte b))%string)).

Definition DomainID_UnmarshalJSON (dri : DomainID) (b : bytes)
  : outcome (DomainID * option error) :=
  q <- andalso (byteIs b 0 dquote) (byteIs b (len b - 1) dquote) ;;
  if q then
    b' <- slice b 1 (len b - 1) ;;
    Returned (string_of_list_byte b', None)
  else
    Returned (dri, Some (errorString
      ("unable to parse a DNSRecordID from " ++ Quote (string_of_list_byte b))%string)).

Definition DNSRecordID_UnmarshalJSON (dri : DNSRecordID) (b : bytes)
  : outcome (DNSRecordID * option error) :=
  q <- andalso (byteIs b 0 dquote) (byteIs b (len b - 1) dquote) ;;
  if q then
    b' <- slice b 1 (len b - 1) ;;
    Returned (string_of_list_byte b', None)
  else
    Returned (dri, Some (errorString
      ("unable to parse a DNSRecordID from " ++ Quote (string_of_list_byte b))%string)).

Definition TTL_UnmarshalJSON (ttl : TTL) (b : bytes)
  : outcome (TTL * option error) :=
  match GoStrconv.Atoi (string_of_list_byte b) with
  | None =>
      Returned (ttl, Some (errorString
        ("unable to parse a TTL from " ++ string_of_list_byte b)%string))
  | Some val => Returned (int64 (val * GoTime.Second), None)
  end.

Definition Date_UnmarshalJSON (d : Date) (b : bytes)
  : outcome (Date * option error) :=
  q <- andalso (byteIs b 0 dquote) (byteIs b (len b - 1) dquote) ;;
  if q then
    b' <- slice b 1 (len b - 1) ;;
    let (t, err) := time_Parse "2006-01-02" (string_of_list_byte b') in
    Returned ({| Date_Time := t |}, Some (errorString
      ("unable to parse the Date string: " ++ fmt_s err)%string))
  else
    Returned (d, Some (errorString
      ("unable to parse a Date from " ++ Quote (string_of_list_byte b))%string)).

Definition YearMonth_UnmarshalJSON (ym : YearMonth) (b : bytes)
  : outcome (YearMonth * option error) :=
  q <- andalso (byteIs b 0 dquote) (byteIs b (len b - 1) dquote) ;;
  if q then
    b' <- slice b 1 (len b - 1) ;;
    let (t, err) := time_Parse "2006/01" (string_of_list_byte b') in
    Returned ({| YearMonth_Time := t |}, Some (errorString
      ("unable to parse the YearMonth string: " ++ fmt_s err)%string))
  else
    Returned (ym, Some (errorString
      ("unable to parse a YearMonth from " ++ Quote (string_of_list_byte b))%string)).

End ScalarCodecs.

(** ** The domain model *)

Module Billing.
(** How a domain's Hover user has set up billing. *)
Record t : Type := {
  PayMode : string; CardNumber : string; CardExpires : YearMonth;
  FirstName : string; LastName : string;
  Address1 : string; Address2 : string;
  City : string; State : string; Country : string;
  PostalCode : string; Phone : string
}.
End Billing.

Module User.
Record t : Type := {
  Email : string; EmailSecondary : string; Billing : Billing.t
}.
End User.

Module Contact.
Record t : Type := {
  FirstName : string; LastName : string; OrgName : string;
  Email : string; Phone : string; Fax : string;
  City : string; State : string; ZIPCode : string; Country : string;
  Address1 : string; Address2 : string; Address3 : string
}.
End Contact.

Module Contacts.
Record t : Type := { Admin : Contact.t; Owner : Contact.t; Tech : Contact.t }.
End Contacts.

Module Domain.
(** A domain and its information; [Any] stands for [interface{}], the
    values of the [Glue] map. *)
Record t (Any : Type) : Type := {
  ID : DomainID; Status : string; DomainName : string;
  RenewalDate : Date; DisplayDate : Date;
  Glue : list (string * Any);
  HoverUser : User.t;
  Nameservers : list string;
  Renewable : bool; AutoRenew : bool; Locked : bool; WhoisPrivacy : bool;
  NumEmails : Z;
  Contacts : Contacts.t;
  RegisteredDate : Date
}.
End Domain.

Module DNSRecord.
Record t : Type := {
  ID : DNSRecordID; Type_ : RecordType; Name : string; Content : string;
  TTL : TTL; IsDefault : bool; CanRevert : bool
}.
End DNSRecord.

Module DNSDomain.
(** [Entries] is a slice of pointers; a nil pointer is [None]. *)
Record t : Type := {
  ID : DomainID; DomainName : string; Active : bool;
  Entries : list (option DNSRecord.t)
}.
End DNSDomain.

Module NewDNSRecord.
(** The data needed to create a new DNS record; [TTL] is a
    [time.Duration]. *)
Record t : Type := {
  Type_ : RecordType; Name : string; Content : string; TTL : Z
}.
End NewDNSRecord.

Module hoverResp.
(** The envelope of every response body. *)
Record t : Type := { Succeeded : bool; ErrorCode : string; Error : string }.
Definition zero : t :=
  {| Succeeded := false; ErrorCode := EmptyString; Error := EmptyString |}.
End hoverResp.

(** ** HTTP as the package sees it *)

Module Cookie.
(** The fields of [http.Cookie] the package reads. *)
Record t : Type := { Name : string; Value : string }.
End Cookie.

Module Request.
(** An [*http.Request]: the URL is kept as the text it was parsed from. *)
Record t : Type := { Method : string; URL : string; Cookies : list Cookie.t }.

Definition AddCookie (r : t) (c : Cookie.t) : t :=
  {| Method := Method r; URL := URL r; Cookies := Cookies r ++ [c] |}.
End Request.

Module Response.
(** An [*http.Response]: [Cookies] is the result of [r.Cookies()], [Body]
    the result of [ioutil.ReadAll(r.Body)]. *)
Record t : Type := {
  StatusCode : Z; Cookies : list Cookie.t; Body : bytes + error
}.
End Response.

(** [url.Values] with the keys set at most once each. *)
Definition Values := list (string * string).

Definition Values_Set (key value : string) (v : Values) : Values :=
  filter (fun kv => negb (fst kv =? key)%string) v ++ [(key, value)].

Definition defaultURL : string := "https://www.hover.com/api".

(** The interface [json.Unmarshaler] seen from [json.Unmarshal]: decoding a
    body into a value of type [T] updates the value and may fail. *)
Class Unmarshal (T : Type) : Type :=
  json_Unmarshal : bytes -> T -> T * option error.

Section Client.

(** [interface{}], [context.Context] and the state of whatever answers
    the requests. *)
Variables (Any Context Net : Type).

(** [url.Parse], as called by [http.NewRequest]: the message of its error,
    [None] when the text parses. *)
Variable url_Parse_err : string -> option string.

(** [url.Values.Encode] *)
Variable Encode : Values -> string.

Local Abbreviation Domain := (Domain.t Any).

(** An [*http.Client]: performing a request changes the state of the
    network and yields a response or an error (also on cancellation). *)
Record http_Client : Type := {
  Do : Context -> Request.t -> Net -> (Response.t + error) * Net
}.

(** The network and the requests handed to the transport so far. *)
Record World : Type := { net : Net; sent : list Request.t }.

(** [Client] provides methods to access the unofficial Hover DNS API. *)
Record Client : Type := { hc : http_Client; cook : Cookie.t }.

Definition NewClient (hc : http_Client) (loginCookie : Cookie.t) : Client :=
  {| hc := hc; cook := loginCookie |}.

(** The anonymous response structures of the operations; the slices and
    pointers they hold are nil ([[]], [None]) until decoded. *)
Record domainsResp : Type := {
  domainsResp_hoverResp : hoverResp.t;
  domainsResp_Domains : list (option Domain)
}.

Record domainResp : Type := {
  domainResp_hoverResp : hoverResp.t;
  domainResp_Domain : option Domain
}.

Record dnsDomainsResp : Type := {
  dnsDomainsResp_hoverResp : hoverResp.t;
  dnsDomainsResp_DNSDomains : list (option DNSDomain.t)
}.

Context {U_hoverResp : Unmarshal hoverResp.t}
        {U_domainsResp : Unmarshal domainsResp}
        {U_domainResp : Unmarshal domainResp}
        {U_dnsDomainsResp : Unmarshal dnsDomainsResp}.

(** [http.NewRequest] with a constant, valid method and no body. *)
Definition http_NewRequest (method urlStr : string) : Request.t + error :=
  match url_Parse_err urlStr with
  | Some msg => inr (foreign msg)
  | None => inl {| Request.Method := method; Request.URL := urlStr;
                   Request.Cookies := [] |}
  end.

(** [ctxhttp.Do]: the one place where the transport is invoked. *)
Definition ctxhttp_Do (ctx : Context) (client : http_Client) (req : Request.t)
           (w : World) : (Response.t + error) * World :=
  let (r, n) := Do client ctx req (net w) in
  (r, {| net := n; sent := sent w ++ [req] |}).

(** [ctxhttp.Get] *)
Definition ctxhttp_Get (ctx : Context) (client : http_Client) (urlStr : string)
           (w : World) : (Response.t + error) * World :=
  match http_NewRequest "GET" urlStr with
  | inr err => (inr err, w)
  | inl req => ctxhttp_Do ctx client req w
  end.

(** [Login] takes a Hover username and password and returns the login
    cookie. *)
Definition Login (ctx : Context) (client : http_Client)
           (username password : string) (w : World)
  : (option Cookie.t * option error) * World :=
  let v := Values_Set "password" password (Values_Set "username" username []) in
  let (r, w1) :=
    ctxhttp_Get ctx client (defaultURL ++ "/login?" ++ Encode v)%string w in
  match r with
  | inr err => ((None, Some err), w1)
  | inl r =>
      if negb (Response.StatusCode r =? 200) then
        ((None, Some (InvalidLogin
           ("login HTTP status code was "
            ++ GoStrconv.Itoa (Response.StatusCode r))%string)), w1)
      else
        match find (fun cook =>
                      (Cookie.Name cook =? "hoverauth")%string
                      && negb (Cookie.Value cook =? EmptyString)%string)
                   (Response.Cookies r) with
        | None =>
            ((None, Some (InvalidLogin
               "unable to find 'hoverauth' cookie with data in response")), w1)
        | Some c => ((Some c, None), w1)
        end
  end.

(** [do] performs a HTTP request, unmarshals the returned JSON into [obj],
    and returns the HTTP status code of the response and any error.  The
    body reader of the request is nil at every call and is left out. *)
Definition do {T : Type} {U : Unmarshal T} (c : Client) (ctx : Context)
           (obj : T) (method urlStr : string) (w : World)
  : (T * Z * option error) * World :=
  match http_NewRequest method urlStr with
  | inr err => ((obj, -1, Some err), w)
  | inl req =>
      let req := Request.AddCookie req (cook c) in
      let (r, w1) := ctxhttp_Do ctx (hc c) req w in
      match r with
      | inr err => ((obj, -1, Some err), w1)
      | inl resp =>
          match Response.Body resp with
          | inr err => ((obj, -1, Some err), w1)
          | inl body =>
              let (obj', err) := json_Unmarshal body obj in
              ((obj', Response.StatusCode resp, err), w1)
          end
      end
  end.

Definition apiError (code : Z) (dr : hoverResp.t) : error :=
  APIErr {| StatusCode := code;
            ErrorCode := hoverResp.ErrorCode dr;
            ErrorMsg := hoverResp.Error dr |}.

(** [Domains] gets the list of domains for the logged-in user. *)
Definition Domains (c : Client) (ctx : Context) (w : World)
  : (list (option Domain) * option error) * World :=
  let dr := {| domainsResp_hoverResp := hoverResp.zero;
               domainsResp_Domains := [] |} in
  let '((dr, code, err), w1) :=
    do c ctx dr "GET" (defaultURL ++ "/domains")%string w in
  match err with
  | Some err => (([], Some err), w1)
  | None =>
      if negb (hoverResp.Succeeded (domainsResp_hoverResp dr)) then
        (([], Some (apiError code (domainsResp_hoverResp dr))), w1)
      else ((domainsResp_Domains dr, None), w1)
  end.

(** [DNS] gets the list of DNS domain information. *)
Definition DNS (c : Client) (ctx : Context) (w : World)
  : (list (option DNSDomain.t) * option error) * World :=
  let dr := {| dnsDomainsResp_hoverResp := hoverResp.zero;
               dnsDomainsResp_DNSDomains := [] |} in
  let '((dr, code, err), w1) :=
    do c ctx dr "GET" (defaultURL ++ "/dns")%string w in
  match err with
  | Some err => (([], Some err), w1)
  | None =>
      if negb (hoverResp.Succeeded (dnsDomainsResp_hoverResp dr)) then
        (([], Some (apiError code (dnsDomainsResp_hoverResp dr))), w1)
      else ((dnsDomainsResp_DNSDomains dr, None), w1)
  end.

(** [GetDomain] returns a single Domain's information. *)
Definition GetDomain (c : Client) (ctx : Context) (domainID : DomainID)
           (w : World) : (option Domain * option error) * World :=
  if (domainID =? EmptyString)%string then
    ((None, Some (errorString "empty domainID")), w)
  else
    let dr := {| domainResp_hoverResp := hoverResp.zero;
                 domainResp_Domain := None |} in
    let '((dr, code, err), w1) :=
      do c ctx dr "GET" (defaultURL ++ "/domains/" ++ domainID)%string w in
    match err with
    | Some err => ((None, Some err), w1)
    | None =>
        if negb (hoverResp.Succeeded (domainResp_hoverResp dr)) then
          ((None, Some (apiError code (domainResp_hoverResp dr))), w1)
        else ((domainResp_Domain dr, None), w1)
    end.

(** [GetDNSDomains] returns the DNSDomains of a single domain. *)
Definition GetDNSDomains (c : Client) (ctx : Context) (domainID : DomainID)
           (w : World) : (list (option DNSDomain.t) * option error) * World :=
  if (domainID =? EmptyString)%string then
    (([], Some (errorString "empty domainID")), w)
  else
    let dr := {| dnsDomainsResp_hoverResp := hoverResp.zero;
                 dnsDomainsResp_DNSDomains := [] |} in
    let '((dr, code, err), w1) :=
      do c ctx dr "GET"
         (defaultURL ++ "/domains/" ++ domainID ++ "/dns")%string w in
    match err with
    | Some err => (([], Some err), w1)
    | None =>
        if negb (hoverResp.Succeeded (dnsDomainsResp_hoverResp dr)) then
          (([], Some (apiError code (dnsDomainsResp_hoverResp dr))), w1)
        else ((dnsDomainsResp_DNSDomains dr, None), w1)
    end.

(** [AddDNSRecord] adds a new DNS record to a domain; [rec] is taken to be
    a non-nil pointer.  The division of durations truncates. *)
Definition AddDNSRecord (c : Client) (ctx : Context) (domainID : DomainID)
           (rec : NewDNSRecord.t) (w : World) : option error * World :=
  if (domainID =? EmptyString)%string then
    (Some (errorString "empty domainID"), w)
  else if (NewDNSRecord.Content rec =? EmptyString)%string then
    (Some (errorString "Content can't be empty"), w)
  else
    let v := Values_Set "type" (NewDNSRecord.Type_ rec) [] in
    let v := Values_Set "name" (NewDNSRecord.Name rec) v in
    let v := Values_Set "content" (NewDNSRecord.Content rec) v in
    let v := Values_Set "ttl"
               (GoStrconv.Itoa (Z.quot (NewDNSRecord.TTL rec) GoTime.Second)) v in
    let '((dr, code, err), w1) :=
      do c ctx hoverResp.zero "POST"
         (defaultURL ++ "/domains/" ++ domainID ++ "/dns?" ++ Encode v)%string w in
    match err with
    | Some err => (Some err, w1)
    | None =>
        if negb (hoverResp.Succeeded dr) then (Some (apiError code dr), w1)
        else (None, w1)
    end.

(** [DeleteDNSRecord] deletes the DNS record specified by the given
    DNSRecordID. *)
Definition DeleteDNSRecord (c : Client) (ctx : Context) (dnsID : DNSRecordID)
           (w : World) : option error * World :=
  let '((dr, code, err), w1) :=
    do c ctx hoverResp.zero "DELETE" (defaultURL ++ "/dns/" ++ dnsID)%string w in
  match err with
  | Some err => (Some err, w1)
  | None =>
      if negb (hoverResp.Succeeded dr) then (Some (apiError code dr), w1)
      else (None, w1)
  end.

(** *** The operations catalog as one dispatcher

    The six calls behind one entry point, so that a property can be stated
    once for every operation. *)

Inductive Op : Type :=
| OpDomains
| OpDNS
| OpGetDomain (domainID : DomainID)
| OpGetDNSDomains (domainID : DomainID)
| OpAddDNSRecord (domainID : DomainID) (rec : NewDNSRecord.t)
| OpDeleteDNSRecord (dnsID : DNSRecordID).

(** What an operation returns next to its error. *)
Inductive Payload : Type :=
| PDomains (l : list (option Domain))
| PDomain (d : option Domain)
| PDNSDomains (l : list (option DNSDomain.t))
| PNone.

Definition call (c : Client) (ctx : Context) (op : Op) (w : World)
  : (Payload * option error) * World :=
  match op with
  | OpDomains =>
      let '((l, err), w1) := Domains c ctx w in ((PDomains l, err), w1)
  | OpDNS =>
      let '((l, err), w1) := DNS c ctx w in ((PDNSDomains l, err), w1)
  | OpGetDomain domainID =>
      let '((d, err), w1) := GetDomain c ctx domainID w in ((PDomain d, err), w1)
  | OpGetDNSDomains domainID =>
      let '((l, err), w1) := GetDNSDomains c ctx domainID w in
      ((PDNSDomains l, err), w1)
  | OpAddDNSRecord domainID rec =>
      let '(err, w1) := AddDNSRecord c ctx domainID rec w in ((PNone, err), w1)
  | OpDeleteDNSRecord dnsID =>
      let '(err, w1) := DeleteDNSRecord c ctx dnsID w in ((PNone, err), w1)
  end.

(** The nil results an operation returns on failure. *)
Definition nilPayload (op : Op) : Payload :=
  match op with
  | OpDomains => PDomains []
  | OpDNS | OpGetDNSDomains _ => PDNSDomains []
  | OpGetDomain _ => PDomain None
  | OpAddDNSRecord _ _ | OpDeleteDNSRecord _ => PNone
  end.

(** The checks an operation makes on its arguments before anything else. *)
Definition precondition (op : Op) : option error :=
  match op with
  | OpDomains | OpDNS | OpDeleteDNSRecord _ => None
  | OpGetDomain domainID | OpGetDNSDomains domainID =>
      if (domainID =? EmptyString)%string
      then Some (errorString "empty domainID") else None
  | OpAddDNSRecord domainID rec =>
      if (domainID =? EmptyString)%string
      then Some (errorString "empty domainID")
      else if (NewDNSRecord.Content rec =? EmptyString)%string
      then Some (errorString "Content can't be empty") else None
  end.

(** The request an operation hands to the transport. *)
Definition requestOf (c : Client) (op : Op) : Request.t :=
  let req (method urlStr : string) :=
    {| Request.Method := method; Request.URL := urlStr;
       Request.Cookies := [cook c] |} in
  match op with
  | OpDomains => req "GET" (defaultURL ++ "/domains")%string
  | OpDNS => req "GET" (defaultURL ++ "/dns")%string
  | OpGetDomain domainID =>
      req "GET" (defaultURL ++ "/domains/" ++ domainID)%string
  | OpGetDNSDomains domainID =>
      req "GET" (defaultURL ++ "/domains/" ++ domainID ++ "/dns")%string
  | OpAddDNSRecord domainID rec =>
      req "POST"
        (defaultURL ++ "/domains/" ++ domainID ++ "/dns?"
         ++ Encode
              [("type", NewDNSRecord.Type_ rec); ("name", NewDNSRecord.Name rec);
               ("content", NewDNSRecord.Content rec);
               ("ttl", GoStrconv.Itoa
                         (Z.quot (NewDNSRecord.TTL rec) GoTime.Second))])%string
  | OpDeleteDNSRecord dnsID => req "DELETE" (defaultURL ++ "/dns/" ++ dnsID)%string
  end.

(** What [json.Unmarshal] makes of a body for an operation: the envelope,
    the payload fields and the error. *)
Definition decoded (op : Op) (body : bytes) : hoverResp.t * Payload * option error :=
  match op with
  | OpDomains =>
      let (dr, err) :=
        json_Unmarshal body {| domainsResp_hoverResp := hoverResp.zero;
                               domainsResp_Domains := [] |} in
      (domainsResp_hoverResp dr, PDomains (domainsResp_Domains dr), err)
  | OpDNS | OpGetDNSDomains _ =>
      let (dr, err) :=
        json_Unmarshal body {| dnsDomainsResp_hoverResp := hoverResp.zero;
                               dnsDomainsResp_DNSDomains := [] |} in
      (dnsDomainsResp_hoverResp dr, PDNSDomains (dnsDomainsResp_DNSDomains dr), err)
  | OpGetDomain _ =>
      let (dr, err) :=
        json_Unmarshal body {| domainResp_hoverResp := hoverResp.zero;
                               domainResp_Domain := None |} in
      (domainResp_hoverResp dr, PDomain (domainResp_Domain dr), err)
  | OpAddDNSRecord _ _ | OpDeleteDNSRecord _ =>
      let (dr, err) := json_Unmarshal body hoverResp.zero in (dr, PNone, err)
  end.

(** The world after one more request went to the transport. *)
Definition after (w : World) (req : Request.t) (n : Net) : World :=
  {| net := n; sent := sent w ++ [req] |}.

End Client.


(** [contains sub s]: [sub] occurs in [s]. *)
Fixpoint contains (sub s : string) : bool :=
  if String.prefix sub s then true
  else match s with
       | EmptyString => false
       | String _ s' => contains sub s'
       end.

Arguments Build_World {Net} net sent.
Arguments net {Net} w.
Arguments sent {Net} w.
Arguments after {Net} w req n.
Arguments Build_http_Client {Context Net} Do.
Arguments Do {Context Net} h ctx req n.
Arguments Build_Client {Context Net} hc cook.
Arguments hc {Context Net} c.
Arguments cook {Context Net} c.
Arguments NewClient {Context Net} hc loginCookie.
Arguments Login {Context Net} url_Parse_err Encode ctx client username password w.
Arguments do {Context Net} url_Parse_err {T U} c ctx obj method urlStr w.
Arguments Domains {Any Context Net} url_Parse_err {U_domainsResp} c ctx w.
Arguments DNS {Context Net} url_Parse_err {U_dnsDomainsResp} c ctx w.
Arguments GetDomain {Any Context Net} url_Parse_err {U_domainResp} c ctx domainID w.
Arguments GetDNSDomains {Context Net} url_Parse_err {U_dnsDomainsResp} c ctx domainID w.
Arguments AddDNSRecord {Context Net} url_Parse_err Encode {U_hoverResp} c ctx domainID rec w.
Arguments DeleteDNSRecord {Context Net} url_Parse_err {U_hoverResp} c ctx dnsID w.
Arguments call {Any Context Net} url_Parse_err Encode
  {U_hoverResp U_domainsResp U_domainResp U_dnsDomainsResp} c ctx op w.
Arguments decoded {Any U_hoverResp U_domainsResp U_domainResp U_dnsDomainsResp} op body.
Arguments requestOf {Context Net} Encode c op.
Arguments nilPayload {Any} op.
Arguments PDomains {Any} l.
Arguments PDomain {Any} d.
Arguments PDNSDomains {Any} l.
Arguments PNone {Any}.
Arguments Build_domainsResp {Any} _ _.
Arguments Build_domainResp {Any} _ _.
Arguments domainsResp_hoverResp {Any} d.
Arguments domainsResp_Domains {Any} d.
Arguments domainResp_hoverResp {Any} d.
Arguments domainResp_Domain {Any} d.

Module GoURL.

Definition unreserved (n : N) : bool :=
  ((48 <=? n) && (n <=? 57) || (65 <=? n) && (n <=? 90)
   || (97 <=? n) && (n <=? 122)
   || (n =? 45) || (n =? 95) || (n =? 46) || (n =? 126))%N.

Definition upperhex (n : N) : ascii :=
  ascii_of_N (if (n <? 10)%N then 48 + n else 55 + n)%N.

(** [url.QueryEscape] *)
Fixpoint QueryEscape (s : string) : string :=
  match s with
  | EmptyString => EmptyString
  | String c s' =>
      let n := N_of_ascii c in
      if unreserved n then String c (QueryEscape s')
      else if (n =? 32)%N then String "+"%char (QueryEscape s')
      else String "%"%char
             (String (upperhex (n / 16))
                (String (upperhex (n mod 16)) (QueryEscape s')))
  end.

Fixpoint insert (kv : string * string) (v : Values) : Values :=
  match v with
  | [] => [kv]
  | kv' :: v' =>
      if String.leb (fst kv) (fst kv') then kv :: v else kv' :: insert kv v'
  end.

Definition sortByKey (v : Values) : Values := fold_right insert [] v.

(** [url.Values.Encode]: the pairs sorted by key, escaped, joined by an
    ampersand. *)
Definition Encode (v : Values) : string :=
  String.concat "&"
    (map (fun kv => (QueryEscape (fst kv) ++ "=" ++ QueryEscape (snd kv))%string)
       (sortByKey v)).

End GoURL.

(** ** Test doubles

    A transport that answers every request with one fixed result and never
    changes, decoders that produce one fixed value, and a URL parser that
    accepts every text: the stand-ins a test of the package would plug in. *)

Module Double.

Definition fixedTransport (r : Response.t + error) : http_Client unit unit :=
  {| Do := fun _ _ n => (r, n) |}.

Definition start : World unit := {| net := tt; sent := [] |}.

Definition acceptURL : string -> option string := fun _ => None.

Definition fixedDecoder {T : Type} (v : T) (err : option error) : Unmarshal T :=
  fun _ _ => (v, err).

Definition loginCookie : Cookie.t :=
  {| Cookie.Name := "hoverauth"; Cookie.Value := "abc123" |}.

Definition refused : hoverResp.t :=
  {| hoverResp.Succeeded := false; hoverResp.ErrorCode := "E1";
     hoverResp.Error := "bad" |}.

Definition accepted : hoverResp.t :=
  {| hoverResp.Succeeded := true; hoverResp.ErrorCode := EmptyString;
     hoverResp.Error := EmptyString |}.

Definition exampleDNSDomain : DNSDomain.t :=
  {| DNSDomain.ID := "d1"; DNSDomain.DomainName := "example.com";
     DNSDomain.Active := true; DNSDomain.Entries := [] |}.

Definition body : bytes := list_byte_of_string "{}".

Definition answer (code : Z) : Response.t :=
  {| Response.StatusCode := code; Response.Cookies := [];
     Response.Body := inl body |}.

(** A client whose transport answers every request with the given status
    code and the fixed body. *)
Definition client (code : Z) : Client unit unit :=
  NewClient (fixedTransport (inl (answer code))) loginCookie.

(** Decoders that find the given envelope in every body, next to a fixed
    payload. *)
Definition decodeEnvelope (env : hoverResp.t) : Unmarshal hoverResp.t :=
  fixedDecoder env None.

Definition decodeDomains (env : hoverResp.t) : Unmarshal (domainsResp unit) :=
  fixedDecoder {| domainsResp_hoverResp := env; domainsResp_Domains := [None] |}
               None.

Definition decodeDomain (env : hoverResp.t) : Unmarshal (domainResp unit) :=
  fixedDecoder {| domainResp_hoverResp := env; domainResp_Domain := None |} None.

Definition decodeDNSDomains (env : hoverResp.t) : Unmarshal dnsDomainsResp :=
  fixedDecoder {| dnsDomainsResp_hoverResp := env;
                  dnsDomainsResp_DNSDomains := [Some exampleDNSDomain] |} None.

(** A call of the catalog on these doubles. *)
Definition callWith (env : hoverResp.t) (code : Z) (op : Op)
  : (Payload unit * option error) * World unit :=
  @call unit unit unit acceptURL GoURL.Encode
    (decodeEnvelope env) (decodeDomains env) (decodeDomain env)
    (decodeDNSDomains env) (client code) tt op start.

(** A login answered with the given status code and cookies. *)
Definition loginWith (code : Z) (cookies : list Cookie.t)
  : (option Cookie.t * option error) * World unit :=
  Login acceptURL GoURL.Encode tt
    (fixedTransport (inl {| Response.StatusCode := code;
                            Response.Cookies := cookies;
                            Response.Body := inl [] |}))
    "user" "secret" start.

(** The answer to a login with the given status code and cookies. *)
Definition loginAnswer (code : Z) (cookies : list Cookie.t) : Response.t :=
  {| Response.StatusCode := code; Response.Cookies := cookies;
     Response.Body := inl [] |}.

(** Cookies of which the third is the first one named hoverauth with a
    value. *)
Definition jarBefore : list Cookie.t :=
  [{| Cookie.Name := "session"; Cookie.Value := "s1" |};
   {| Cookie.Name := "hoverauth"; Cookie.Value := EmptyString |}].

Definition jarAfter : list Cookie.t :=
  [{| Cookie.Name := "hoverauth"; Cookie.Value := "later" |}].

(** A decoder that finds a list of domains starting with a null. *)
Definition decodeNullFirst : Unmarshal dnsDomainsResp :=
  fixedDecoder
    {| dnsDomainsResp_hoverResp := accepted;
       dnsDomainsResp_DNSDomains := [None; Some exampleDNSDomain] |} None.

(** A URL parser that refuses every text. *)
Definition refuseURL : string -> option string :=
  fun _ => Some "net/url: invalid URL".

(** The error of a transport that cannot connect, and a client on such a
    transport. *)
Definition unreachable : error := foreign "dial tcp: connection refused".

Definition offlineClient : Client unit unit :=
  NewClient (fixedTransport (inr unreachable)) loginCookie.

(** The error of a decoder that rejects the body. *)
Definition malformed : error := foreign "unexpected end of JSON input".

(** A record to add. *)
Definition txtRecord (ttl : Z) : NewDNSRecord.t :=
  {| NewDNSRecord.Type_ := TXT; NewDNSRecord.Name := "_acme-challenge";
     NewDNSRecord.Content := "cool stuff"; NewDNSRecord.TTL := ttl |}.

End Double.

(** ** The texts of the errors *)

(** [InvalidLogin.Error] *)
Definition InvalidLogin_Error (il : string) : string := il.

Section ErrorTexts.

(** [strconv.Quote], through the verb [%#v] of [fmt]. *)
Variable Quote : string -> string.

(** [APIError.Error] *)
Definition APIError_Error (ae : APIError) : string :=
  ("Hover API returned error code " ++ Quote (ErrorCode ae) ++ ": "
   ++ ErrorMsg ae)%string.

(** The method [Error] of an [error] value, which is what the verb [%s]
    prints for it. *)
Definition error_Error (e : error) : string :=
  match e with
  | errorString msg => msg
  | InvalidLogin il => InvalidLogin_Error il
  | APIErr ae => APIError_Error ae
  | foreign msg => msg
  end.

End ErrorTexts.

(** ** The example program of the README

    The user name and the password it reads from the environment, the
    default HTTP client and the three contexts with a timeout are
    arguments of [main]. *)

(** How the program ends: it returns, [log.Fatalf] prints a message and
    exits, or it dereferences a nil pointer. *)
Inductive exit : Type :=
| Finished
| Fatal (msg : string)
| NilPointerDereference.

(** The result of the loop over the listed domains. *)
Inductive searched : Type :=
| Found (d : DNSDomain.t)
| NotFound
| NilEntry.

(** The loop that looks for the domain by name: it stops at the first
    match, and reading the name of a nil entry panics. *)
Fixpoint search (domain : string) (doms : list (option DNSDomain.t)) : searched :=
  match doms with
  | [] => NotFound
  | None :: _ => NilEntry
  | Some d :: rest =>
      if (DNSDomain.DomainName d =? domain)%string then Found d
      else search domain rest
  end.

(** The record the program adds. *)
Definition exampleRecord : NewDNSRecord.t :=
  {| NewDNSRecord.Type_ := TXT;
     NewDNSRecord.Name := "_acme-challenge.example.com";
     NewDNSRecord.Content := "coolstuff";
     NewDNSRecord.TTL := 900 * GoTime.Second |}.

Section Example.

Variables (Context Net : Type).
Variable Quote : string -> string.
Variable url_Parse_err : string -> option string.
Variable Encode : Values -> string.
Context {U_hoverResp : Unmarshal hoverResp.t}
        {U_dnsDomainsResp : Unmarshal dnsDomainsResp}.

(** [main]; a nil cookie next to a nil error, which [Login] never returns,
    would be dereferenced by the first request of the client. *)
Definition main (DefaultClient : http_Client Context Net)
           (ctx1 ctx2 ctx3 : Context) (username password : string)
           (w : World Net) : exit * World Net :=
  let '((cook, err), w1) :=
    Login url_Parse_err Encode ctx1 DefaultClient username password w in
  match err with
  | Some err =>
      (Fatal ("unable to login to Hover (be sure to set HOVER_USERNAME and HOVER_PASSWORD env vars): "
              ++ error_Error Quote err)%string, w1)
  | None =>
      match cook with
      | None => (NilPointerDereference, w1)
      | Some cook =>
          let hc := NewClient DefaultClient cook in
          let '((doms, err), w2) := DNS url_Parse_err hc ctx2 w1 in
          match err with
          | Some err =>
              (Fatal ("unable to get DNS information for logged-in hover user: "
                      ++ error_Error Quote err)%string, w2)
          | None =>
              let domain := "example.com" in
              match search domain doms with
              | NilEntry => (NilPointerDereference, w2)
              | NotFound =>
                  (Fatal ("unable to find domain " ++ Quote domain
                          ++ " in logged-in user's domains")%string, w2)
              | Found example =>
                  let (err, w3) :=
                    AddDNSRecord url_Parse_err Encode hc ctx3
                      (DNSDomain.ID example) exampleRecord w2 in
                  match err with
                  | Some err =>
                      (Fatal ("unable to add DNS record to " ++ domain ++ ": "
                              ++ error_Error Quote err)%string, w3)
                  | None => (Finished, w3)
                  end
              end
          end
      end
  end.

End Example.

Arguments main {Context Net} Quote url_Parse_err Encode
  {U_hoverResp U_dnsDomainsResp} DefaultClient ctx1 ctx2 ctx3 username password w.

(** ** Notions used to state the properties *)

(** The conversions [string(domainID)] and [string(dnsID)], by which an
    identifier is written into the path of a request. *)
Definition DomainID_string (id : DomainID) : string := id.
Definition DNSRecordID_string (id : DNSRecordID) : string := id.

(** A decimal integer as text: an optional sign and one or more digits. *)
Definition decimal (b : bytes) : bool :=
  let unsigned (ds : bytes) :=
    match ds with
    | [] => false
    | _ => forallb GoStrconv.isDigit ds
    end in
  match b with
  | [] => false
  | c :: rest =>
      if Byte.eqb c x2d || Byte.eqb c x2b then unsigned rest else unsigned b
  end.

(** A response carries a cookie named hoverauth with a non-empty value. *)
Definition hasAuthCookie (r : Response.t) : Prop :=
  exists c, In c (Response.Cookies r)
            /\ Cookie.Name c = "hoverauth" /\ Cookie.Value c <> EmptyString.

(** A date of the Gregorian calendar. *)
Definition ymd (y m d : Z) : GoTime.Time :=
  {| GoTime.Year := y; GoTime.Month := m; GoTime.Day := d |}.

(** The input has two bytes or more and both its first and its last byte
    are double quotes. *)
Definition isQuoted (b : bytes) : bool :=
  match b with
  | first :: _ :: _ => Byte.eqb first dquote && Byte.eqb (last b first) dquote
  | _ => false
  end.

(** The test every quoted decoder starts with. *)
Definition shapeTest (b : bytes) : outcome bool :=
  andalso (byteIs b 0 dquote) (byteIs b (len b - 1) dquote).

(** The test of the loop of [Login] on one cookie. *)
Definition authentic (cook : Cookie.t) : bool :=
  (Cookie.Name cook =? "hoverauth")%string
  && negb (Cookie.Value cook =? EmptyString)%string.

(** * Properties *)

(** ** Byte slices *)

Lemma len_nonneg (b : bytes) : 0 <= len b.
Proof. unfold len. lia. Qed.

Lemma len_cons (c : byte) (b : bytes) : len (c :: b) = len b + 1.
Proof. unfold len. cbn [List.length]. lia. Qed.

Lemma len_app (b1 b2 : bytes) : len (b1 ++ b2) = len b1 + len b2.
Proof. unfold len. rewrite length_app. lia. Qed.

Lemma len_quoted (content : bytes) : len (quoted content) = len content + 2.
Proof.
  unfold quoted. rewrite len_cons, len_app, len_cons. cbn. lia.
Qed.

Lemma index_nth (b : bytes) (i : nat) (c : byte) :
  nth_error b i = Some c -> index b (Z.of_nat i) = Returned c.
Proof.
  intros H. unfold index.
  assert (Hlt : (i < List.length b)%nat)
    by (apply nth_error_Some; congruence).
  replace (0 <=? Z.of_nat i) with true by (symmetry; apply Z.leb_le; lia).
  replace (Z.of_nat i <? len b) with true
    by (symmetry; apply Z.ltb_lt; unfold len; lia).
  cbn [andb]. now rewrite Nat2Z.id, H.
Qed.

Lemma index_outside (b : bytes) (i : Z) :
  i < 0 \/ len b <= i -> index b i = Panicked (IndexOutOfRange i (len b)).
Proof.
  intros H. unfold index.
  destruct (0 <=? i) eqn:E1; cbn [andb]; [|reflexivity].
  destruct (i <? len b) eqn:E2; [|reflexivity].
  apply Z.leb_le in E1. apply Z.ltb_lt in E2. lia.
Qed.

Lemma index_first (c : byte) (b : bytes) : index (c :: b) 0 = Returned c.
Proof. now apply (index_nth (c :: b) 0). Qed.

Lemma index_last (b : bytes) (c : byte) :
  index (b ++ [c]) (len (b ++ [c]) - 1) = Returned c.
Proof.
  replace (len (b ++ [c]) - 1) with (Z.of_nat (List.length b))
    by (rewrite len_app; unfold len; cbn; lia).
  apply index_nth.
  rewrite nth_error_app2 by lia. now rewrite Nat.sub_diag.
Qed.

Lemma slice_inside (b : bytes) (lo hi : Z) :
  0 <= lo <= hi -> hi <= len b ->
  slice b lo hi = Returned (firstn (Z.to_nat (hi - lo)) (skipn (Z.to_nat lo) b)).
Proof.
  intros H1 H2. unfold slice.
  replace (0 <=? lo) with true by (symmetry; apply Z.leb_le; lia).
  replace (lo <=? hi) with true by (symmetry; apply Z.leb_le; lia).
  replace (hi <=? len b) with true by (symmetry; apply Z.leb_le; lia).
  reflexivity.
Qed.

Lemma slice_reversed (b : bytes) (lo hi : Z) :
  hi < lo -> slice b lo hi = Panicked (SliceBoundsOutOfRange lo hi).
Proof.
  intros H. unfold slice.
  replace (lo <=? hi) with false by (symmetry; apply Z.leb_gt; lia).
  now rewrite andb_false_r.
Qed.

(** The test every quoted decoder starts with, on a quoted wire value. *)
Lemma quoted_test (content : bytes) :
  andalso (byteIs (quoted content) 0 dquote)
          (byteIs (quoted content) (len (quoted content) - 1) dquote)
  = Returned true.
Proof.
  unfold andalso, byteIs.
  unfold quoted at 1. rewrite index_first. cbn [obind].
  change (quoted content) with ((dquote :: content) ++ [dquote]).
  rewrite index_last. reflexivity.
Qed.

(** Stripping the quotes of a quoted wire value gives its content back. *)
Lemma quoted_strip (content : bytes) :
  slice (quoted content) 1 (len (quoted content) - 1) = Returned content.
Proof.
  rewrite slice_inside; rewrite len_quoted; try (pose proof (len_nonneg content); lia).
  f_equal. unfold quoted.
  replace (Z.to_nat (len content + 2 - 1 - 1)) with (List.length content)
    by (unfold len; lia).
  change (Z.to_nat 1) with 1%nat. cbn [skipn].
  rewrite firstn_app, Nat.sub_diag, firstn_all. cbn. now rewrite app_nil_r.
Qed.

(** From two bytes on, the test and the slice of a quoted decoder stay
    within bounds. *)
Lemma quoted_test_returns (b : bytes) :
  1 <= len b ->
  exists q, andalso (byteIs b 0 dquote) (byteIs b (len b - 1) dquote) = Returned q.
Proof.
  intros H. unfold andalso, byteIs.
  destruct b as [|c b]; [cbn in H; lia|].
  rewrite index_first. cbn [obind].
  destruct (Byte.eqb c dquote); [|now eexists].
  destruct (nth_error (c :: b) (Z.to_nat (len (c :: b) - 1))) as [x|] eqn:E.
  - replace (len (c :: b) - 1) with (Z.of_nat (Z.to_nat (len (c :: b) - 1))) by lia.
    rewrite (index_nth _ _ _ E). now eexists.
  - apply nth_error_None in E. rewrite len_cons in E.
    unfold len in E. cbn [List.length] in E. lia.
Qed.

Lemma strip_returns (b : bytes) :
  2 <= len b -> exists b', slice b 1 (len b - 1) = Returned b'.
Proof. intros H. rewrite slice_inside by lia. now eexists. Qed.

(** ** Scalar codecs *)

Lemma prefix_refl (s : string) : String.prefix s s = true.
Proof.
  induction s as [|c s IH]; [reflexivity|].
  cbn. destruct (ascii_dec c c); [exact IH|congruence].
Qed.

Lemma contains_unfold (sub s : string) :
  contains sub s =
  if String.prefix sub s then true
  else match s with
       | EmptyString => false
       | String _ s' => contains sub s'
       end.
Proof. destruct s; reflexivity. Qed.

Lemma contains_suffix (p sub : string) : contains sub (p ++ sub)%string = true.
Proof.
  induction p as [|c p IH]; rewrite contains_unfold.
  - cbn. now rewrite prefix_refl.
  - destruct (String.prefix sub (String c p ++ sub)); [reflexivity|exact IH].
Qed.

Lemma digits_all (s : bytes) :
  forall n v, GoStrconv.digits s n = Some v -> forallb GoStrconv.isDigit s = true.
Proof.
  induction s as [|c s IH]; intros n v H; [reflexivity|].
  cbn in *. destruct (GoStrconv.isDigit c); [|discriminate].
  cbn. eauto.
Qed.

(** [strconv.Atoi] accepts decimal integers only. *)
Lemma Atoi_decimal (b : bytes) (v : Z) :
  GoStrconv.Atoi (string_of_list_byte b) = Some v -> decimal b = true.
Proof.
  unfold GoStrconv.Atoi, decimal.
  rewrite list_byte_of_string_of_list_byte.
  destruct b as [|c rest]; [discriminate|].
  destruct (Byte.eqb c x2d); cbn [orb].
  - destruct rest as [|d ds]; [discriminate|].
    destruct (GoStrconv.digits (d :: ds) 0) eqn:E; [|discriminate].
    intros _. exact (digits_all _ _ _ E).
  - destruct (Byte.eqb c x2b).
    + destruct rest as [|d ds]; [discriminate|].
      destruct (GoStrconv.digits (d :: ds) 0) eqn:E; [|discriminate].
      intros _. exact (digits_all _ _ _ E).
    + destruct (GoStrconv.digits (c :: rest) 0) eqn:E; [|discriminate].
      intros _. exact (digits_all _ _ _ E).
Qed.

(** C6: decoding the bare text 900 as a TTL gives 900 seconds; decoding
    the quoted text, or any text that is not a decimal integer, fails with
    an error whose message ends in the raw input. *)
Theorem C6_TTL_decode (ttl : TTL) :
  TTL_UnmarshalJSON ttl (list_byte_of_string "900")
  = Returned (900 * GoTime.Second, None)
  /\ TTL_UnmarshalJSON ttl (quoted (list_byte_of_string "900"))
     = Returned (ttl, Some (errorString
         ("unable to parse a TTL from "
          ++ string_of_list_byte (quoted (list_byte_of_string "900")))%string))
  /\ forall b : bytes,
       decimal b = false ->
       TTL_UnmarshalJSON ttl b
       = Returned (ttl, Some (errorString
           ("unable to parse a TTL from " ++ string_of_list_byte b)%string))
       /\ contains (string_of_list_byte b)
            ("unable to parse a TTL from " ++ string_of_list_byte b)%string = true.
Proof.
  split; [reflexivity|]. split; [reflexivity|].
  intros b Hb. split; [|apply contains_suffix].
  unfold TTL_UnmarshalJSON.
  destruct (GoStrconv.Atoi (string_of_list_byte b)) as [v|] eqn:E; [|reflexivity].
  apply Atoi_decimal in E. congruence.
Qed.

(** C6 at the input 15m, which is not a decimal integer. *)
Lemma C6_TTL_decode_witness :
  decimal (list_byte_of_string "15m") = false
  /\ TTL_UnmarshalJSON 0 (list_byte_of_string "15m")
     = Returned (0, Some (errorString "unable to parse a TTL from 15m")).
Proof.
  split; [reflexivity|].
  exact (proj1 (proj2 (proj2 (C6_TTL_decode 0)) (list_byte_of_string "15m") eq_refl)).
Defined.

(** C7: a wire value made of a double quote, any content and a double
    quote decodes as a DomainID and as a DNSRecordID, and the string the
    identifier converts back to has exactly the bytes of the content; the
    empty quoted value decodes to the empty identifier. *)
Theorem C7_opaque_id_decode_encode
  (Quote : string -> string) (old : string) (content : bytes) :
  (exists id : DomainID,
      DomainID_UnmarshalJSON Quote old (quoted content) = Returned (id, None)
      /\ list_byte_of_string (DomainID_string id) = content)
  /\ (exists id : DNSRecordID,
      DNSRecordID_UnmarshalJSON Quote old (quoted content) = Returned (id, None)
      /\ list_byte_of_string (DNSRecordID_string id) = content)
  /\ DomainID_UnmarshalJSON Quote old (quoted []) = Returned (EmptyString, None)
  /\ DNSRecordID_UnmarshalJSON Quote old (quoted []) = Returned (EmptyString, None).
Proof.
  repeat split; try reflexivity.
  - exists (string_of_list_byte content). split.
    + unfold DomainID_UnmarshalJSON.
      rewrite quoted_test. cbn [obind]. now rewrite quoted_strip.
    + apply list_byte_of_string_of_list_byte.
  - exists (string_of_list_byte content). split.
    + unfold DNSRecordID_UnmarshalJSON.
      rewrite quoted_test. cbn [obind]. now rewrite quoted_strip.
    + apply list_byte_of_string_of_list_byte.
Qed.

(** C1: on the quoted wire value 2020-03-05 the Date decoder stores March
    5, 2020 in its receiver and still returns a non-nil error, made from
    the nil error of the parse; the YearMonth decoder does the same on the
    quoted value 2021/07.  Whatever [time.Parse] answers, neither decoder
    ever returns a nil error. *)
Theorem C1_Date_YearMonth_decode_never_succeeds :
  (forall (Quote : string -> string) (d : Date),
      Date_UnmarshalJSON Quote GoTime.Parse d
        (quoted (list_byte_of_string "2020-03-05"))
      = Returned ({| Date_Time := ymd 2020 3 5 |},
                  Some (errorString "unable to parse the Date string: %!s(<nil>)")))
  /\ (forall (Quote : string -> string) (ym : YearMonth),
      YearMonth_UnmarshalJSON Quote GoTime.Parse ym
        (quoted (list_byte_of_string "2021/07"))
      = Returned ({| YearMonth_Time := ymd 2021 7 1 |},
                  Some (errorString
                          "unable to parse the YearMonth string: %!s(<nil>)")))
  /\ (forall Quote time_Parse (d : Date) (b : bytes),
      match Date_UnmarshalJSON Quote time_Parse d b with
      | Returned (_, None) => False
      | _ => True
      end)
  /\ (forall Quote time_Parse (ym : YearMonth) (b : bytes),
      match YearMonth_UnmarshalJSON Quote time_Parse ym b with
      | Returned (_, None) => False
      | _ => True
      end).
Proof.
  split; [reflexivity|]. split; [reflexivity|].
  split; intros Quote time_Parse x b.
  - unfold Date_UnmarshalJSON.
    destruct (andalso _ _) as [[|]|]; cbn [obind]; auto.
    destruct (slice _ _ _) as [b'|]; cbn [obind]; auto.
    now destruct (time_Parse _ _).
  - unfold YearMonth_UnmarshalJSON.
    destruct (andalso _ _) as [[|]|]; cbn [obind]; auto.
    destruct (slice _ _ _) as [b'|]; cbn [obind]; auto.
    now destruct (time_Parse _ _).
Qed.

(** Decoding an unquoted date fails as well, with the message of the shape
    test. *)
Example Date_unquoted (d : Date) :
  Date_UnmarshalJSON GoStrconv.Quote GoTime.Parse d (list_byte_of_string "2020-03-05")
  = Returned (d, Some (errorString
      ("unable to parse a Date from " ++ GoStrconv.Quote "2020-03-05")%string)).
Proof. reflexivity. Qed.

(** C8: a DomainID decode of the unquoted text 123 fails with a message
    that carries the quoted raw input and names DNSRecordID, the same error
    the DNSRecordID decoder returns; the message does not name DomainID. *)
Theorem C8_DomainID_error_names_DNSRecordID :
  (forall (Quote : string -> string) (dri : DomainID),
      DomainID_UnmarshalJSON Quote dri (list_byte_of_string "123")
      = Returned (dri, Some (errorString
          ("unable to parse a DNSRecordID from " ++ Quote "123")%string)))
  /\ (forall (Quote : string -> string) (dri : string),
      DomainID_UnmarshalJSON Quote dri (list_byte_of_string "123")
      = DNSRecordID_UnmarshalJSON Quote dri (list_byte_of_string "123"))
  /\ contains "DomainID"
       ("unable to parse a DNSRecordID from " ++ GoStrconv.Quote "123")%string
     = false
  /\ contains "DNSRecordID"
       ("unable to parse a DNSRecordID from " ++ GoStrconv.Quote "123")%string
     = true.
Proof. repeat split; reflexivity. Qed.

(** The other decoders name their own type when the shape does not
    match. *)
Example shape_errors_name_their_type (Quote : string -> string) :
  RecordType_UnmarshalJSON Quote EmptyString (list_byte_of_string "123")
  = Returned (EmptyString, Some (errorString
      ("unable to parse a RecordType from " ++ Quote "123")%string))
  /\ DNSRecordID_UnmarshalJSON Quote EmptyString (list_byte_of_string "123")
     = Returned (EmptyString, Some (errorString
         ("unable to parse a DNSRecordID from " ++ Quote "123")%string)).
Proof. split; reflexivity. Qed.

(** C10: on the empty input every quoted decoder panics on its first index
    expression, and on the input made of one double quote it panics on the
    slice expression [b[1:0]]; only the TTL decoder returns on both. *)
Theorem C10_quoted_decoders_panic
  (Quote : string -> string)
  (time_Parse : string -> string -> GoTime.Time * option string)
  (s : string) (d : Date) (ym : YearMonth) (ttl : TTL) :
  (RecordType_UnmarshalJSON Quote s [] = Panicked (IndexOutOfRange 0 0)
   /\ DomainID_UnmarshalJSON Quote s [] = Panicked (IndexOutOfRange 0 0)
   /\ DNSRecordID_UnmarshalJSON Quote s [] = Panicked (IndexOutOfRange 0 0)
   /\ Date_UnmarshalJSON Quote time_Parse d [] = Panicked (IndexOutOfRange 0 0)
   /\ YearMonth_UnmarshalJSON Quote time_Parse ym []
      = Panicked (IndexOutOfRange 0 0))
  /\ (RecordType_UnmarshalJSON Quote s [dquote]
      = Panicked (SliceBoundsOutOfRange 1 0)
      /\ DomainID_UnmarshalJSON Quote s [dquote]
         = Panicked (SliceBoundsOutOfRange 1 0)
      /\ DNSRecordID_UnmarshalJSON Quote s [dquote]
         = Panicked (SliceBoundsOutOfRange 1 0)
      /\ Date_UnmarshalJSON Quote time_Parse d [dquote]
         = Panicked (SliceBoundsOutOfRange 1 0)
      /\ YearMonth_UnmarshalJSON Quote time_Parse ym [dquote]
         = Panicked (SliceBoundsOutOfRange 1 0))
  /\ returns (TTL_UnmarshalJSON ttl [])
  /\ returns (TTL_UnmarshalJSON ttl [dquote]).
Proof.
  repeat split; try reflexivity; unfold returns; eexists; reflexivity.
Qed.

(** The TTL decoder returns on every input. *)
Lemma TTL_UnmarshalJSON_returns (ttl : TTL) (b : bytes) :
  returns (TTL_UnmarshalJSON ttl b).
Proof.
  unfold returns, TTL_UnmarshalJSON.
  destruct (GoStrconv.Atoi _); eexists; reflexivity.
Qed.

(** From two bytes on, which covers every JSON string literal, the quoted
    decoders return; with one byte they return unless it is a double
    quote. *)
Lemma quoted_decoders_return
  (Quote : string -> string)
  (time_Parse : string -> string -> GoTime.Time * option string)
  (s : string) (d : Date) (ym : YearMonth) (b : bytes) :
  2 <= len b ->
  returns (RecordType_UnmarshalJSON Quote s b)
  /\ returns (DomainID_UnmarshalJSON Quote s b)
  /\ returns (DNSRecordID_UnmarshalJSON Quote s b)
  /\ returns (Date_UnmarshalJSON Quote time_Parse d b)
  /\ returns (YearMonth_UnmarshalJSON Quote time_Parse ym b).
Proof.
  intros H.
  destruct (quoted_test_returns b) as [q Hq]; [lia|].
  destruct (strip_returns b H) as [b' Hb'].
  unfold returns, RecordType_UnmarshalJSON, DomainID_UnmarshalJSON,
    DNSRecordID_UnmarshalJSON, Date_UnmarshalJSON, YearMonth_UnmarshalJSON.
  rewrite Hq. cbn [obind]. rewrite Hb'. cbn [obind].
  destruct q; repeat split; try (eexists; reflexivity);
    destruct (time_Parse _ _); eexists; reflexivity.
Qed.

(** ** The client *)

Section ClientProperties.

Variables (Any Context Net : Type).
Variable url_Parse_err : string -> option string.
Variable Encode : Values -> string.
Context {U_hoverResp : Unmarshal hoverResp.t}
        {U_domainsResp : Unmarshal (domainsResp Any)}
        {U_domainResp : Unmarshal (domainResp Any)}
        {U_dnsDomainsResp : Unmarshal dnsDomainsResp}.

Implicit Types (c : Client Context Net) (ctx : Context) (w : World Net).

(** [do] on a request that is built, answered and read: the transport is
    invoked once and the body decoded. *)
Lemma do_answered {T : Type} {U : Unmarshal T}
  c ctx (obj : T) (method urlStr : string) w
  (resp : Response.t) (n : Net) (body : bytes) :
  let req := {| Request.Method := method; Request.URL := urlStr;
                Request.Cookies := [cook c] |} in
  url_Parse_err urlStr = None ->
  Do (hc c) ctx req (net w) = (inl resp, n) ->
  Response.Body resp = inl body ->
  do url_Parse_err c ctx obj method urlStr w
  = ((fst (json_Unmarshal body obj), Response.StatusCode resp,
      snd (json_Unmarshal body obj)), after w req n).
Proof.
  intros req Hurl Hrt Hbody.
  unfold do, http_NewRequest, ctxhttp_Do. rewrite Hurl.
  unfold Request.AddCookie. cbn [Request.Method Request.URL Request.Cookies app].
  fold req. rewrite Hrt, Hbody.
  now destruct (json_Unmarshal body obj).
Qed.


(** An operation whose arguments pass its checks and whose request is
    answered with a readable body: the result is decided by the decoding
    error first, then by the [succeeded] flag of the envelope, and by
    nothing else. *)
Lemma call_answered c ctx (op : Op) w
  (resp : Response.t) (n : Net) (body : bytes)
  (env : hoverResp.t) (pl : Payload Any) (err : option error) :
  precondition op = None ->
  url_Parse_err (Request.URL (requestOf Encode c op)) = None ->
  Do (hc c) ctx (requestOf Encode c op) (net w) = (inl resp, n) ->
  Response.Body resp = inl body ->
  decoded op body = (env, pl, err) ->
  call url_Parse_err Encode c ctx op w
  = (match err with
     | Some e => (nilPayload op, Some e)
     | None =>
         if hoverResp.Succeeded env then (pl, None)
         else (nilPayload op,
               Some (APIErr {| StatusCode := Response.StatusCode resp;
                               ErrorCode := hoverResp.ErrorCode env;
                               ErrorMsg := hoverResp.Error env |}))
     end, after w (requestOf Encode c op) n).
Proof.
  intros Hpre Hurl Hrt Hbody Hdec.
  destruct op as [| |domainID|domainID|domainID rec|dnsID];
    cbn [call precondition requestOf decoded nilPayload Request.URL] in *.
  - unfold Domains. erewrite do_answered by eassumption.
    destruct (json_Unmarshal _ _) as [dr e]. cbn [fst snd].
    injection Hdec as <- <- <-.
    destruct e; [reflexivity|].
    now destruct (hoverResp.Succeeded _).
  - unfold DNS. erewrite do_answered by eassumption.
    destruct (json_Unmarshal _ _) as [dr e]. cbn [fst snd].
    injection Hdec as <- <- <-.
    destruct e; [reflexivity|].
    now destruct (hoverResp.Succeeded _).
  - unfold GetDomain.
    destruct (domainID =? EmptyString)%string; [discriminate|].
    erewrite do_answered by eassumption.
    destruct (json_Unmarshal _ _) as [dr e]. cbn [fst snd].
    injection Hdec as <- <- <-.
    destruct e; [reflexivity|].
    now destruct (hoverResp.Succeeded _).
  - unfold GetDNSDomains.
    destruct (domainID =? EmptyString)%string; [discriminate|].
    erewrite do_answered by eassumption.
    destruct (json_Unmarshal _ _) as [dr e]. cbn [fst snd].
    injection Hdec as <- <- <-.
    destruct e; [reflexivity|].
    now destruct (hoverResp.Succeeded _).
  - unfold AddDNSRecord.
    destruct (domainID =? EmptyString)%string; [discriminate|].
    destruct (NewDNSRecord.Content rec =? EmptyString)%string; [discriminate|].
    change (Values_Set "ttl" ?a (Values_Set "content" ?b
             (Values_Set "name" ?d (Values_Set "type" ?e []))))
      with [("type", e); ("name", d); ("content", b); ("ttl", a)].
    erewrite do_answered by eassumption.
    destruct (json_Unmarshal _ _) as [dr e]. cbn [fst snd].
    injection Hdec as <- <- <-.
    destruct e; [reflexivity|].
    now destruct (hoverResp.Succeeded _).
  - unfold DeleteDNSRecord.
    erewrite do_answered by eassumption.
    destruct (json_Unmarshal _ _) as [dr e]. cbn [fst snd].
    injection Hdec as <- <- <-.
    destruct e; [reflexivity|].
    now destruct (hoverResp.Succeeded _).
Qed.

(** An operation whose arguments fail its checks returns the error of the
    check and nil results, and the world is as it was. *)
Lemma call_rejected c ctx (op : Op) w (e : error) :
  precondition op = Some e ->
  call url_Parse_err Encode c ctx op w = ((nilPayload op, Some e), w).
Proof.
  intros Hpre.
  destruct op as [| |domainID|domainID|domainID rec|dnsID];
    cbn [call precondition nilPayload] in *; try discriminate.
  - unfold GetDomain.
    destruct (domainID =? EmptyString)%string; [|discriminate].
    now injection Hpre as <-.
  - unfold GetDNSDomains.
    destruct (domainID =? EmptyString)%string; [|discriminate].
    now injection Hpre as <-.
  - unfold AddDNSRecord.
    destruct (domainID =? EmptyString)%string; [now injection Hpre as <-|].
    destruct (NewDNSRecord.Content rec =? EmptyString)%string; [|discriminate].
    now injection Hpre as <-.
Qed.



(** C4: GetDomain and GetDNSDomains with an empty domainID, and
    AddDNSRecord with an empty content, return an error made by
    [errors.New] and leave the world as it was: nothing was handed to the
    transport. *)
Theorem C4_preconditions_fail_before_any_request c ctx w :
  GetDomain url_Parse_err c ctx EmptyString w
  = ((None, Some (errorString "empty domainID")), w)
  /\ GetDNSDomains url_Parse_err c ctx EmptyString w
     = (([], Some (errorString "empty domainID")), w)
  /\ forall (domainID : DomainID) (ty : RecordType) (name : string) (ttl : Z),
       AddDNSRecord url_Parse_err Encode c ctx domainID
         {| NewDNSRecord.Type_ := ty; NewDNSRecord.Name := name;
            NewDNSRecord.Content := EmptyString; NewDNSRecord.TTL := ttl |} w
       = (Some (errorString
                  (if (domainID =? EmptyString)%string then "empty domainID"
                   else "Content can't be empty")), w).
Proof.
  repeat split.
  intros domainID ty name ttl. unfold AddDNSRecord.
  now destruct (domainID =? EmptyString)%string.
Qed.

(** C5: once the login request is answered, Login returns a cookie exactly
    when the status is 200 and the response has a hoverauth cookie with a
    non-empty value, and the cookie returned is such a cookie of the
    response; any other status gives an InvalidLogin that quotes the
    status, whatever the cookies; status 200 without such a cookie gives
    an InvalidLogin with another message. *)
Theorem C5_Login_outcomes ctx (client : http_Client Context Net)
  (username password : string) w (r : Response.t) (n : Net) :
  let urlStr :=
    (defaultURL ++ "/login?"
     ++ Encode [("username", username); ("password", password)])%string in
  let req := {| Request.Method := "GET"; Request.URL := urlStr;
                Request.Cookies := [] |} in
  let res := fst (Login url_Parse_err Encode ctx client username password w) in
  let badStatus :=
    ("login HTTP status code was "
     ++ GoStrconv.Itoa (Response.StatusCode r))%string in
  let noCookie := "unable to find 'hoverauth' cookie with data in response" in
  url_Parse_err urlStr = None ->
  Do client ctx req (net w) = (inl r, n) ->
  ((exists cookie, res = (Some cookie, None))
   <-> (Response.StatusCode r = 200 /\ hasAuthCookie r))
  /\ (forall cookie, res = (Some cookie, None) ->
        In cookie (Response.Cookies r)
        /\ Cookie.Name cookie = "hoverauth"
        /\ Cookie.Value cookie <> EmptyString)
  /\ (Response.StatusCode r <> 200 ->
        res = (None, Some (InvalidLogin badStatus)))
  /\ (Response.StatusCode r = 200 -> ~ hasAuthCookie r ->
        res = (None, Some (InvalidLogin noCookie)))
  /\ badStatus <> noCookie.
Proof.
  intros urlStr req res badStatus noCookie Hurl Hrt.
  assert (Hres : res =
    if negb (Response.StatusCode r =? 200) then
      (None, Some (InvalidLogin badStatus))
    else match find (fun cook =>
                       (Cookie.Name cook =? "hoverauth")%string
                       && negb (Cookie.Value cook =? EmptyString)%string)
                    (Response.Cookies r) with
         | None => (None, Some (InvalidLogin noCookie))
         | Some c => (Some c, None)
         end).
  { subst res. unfold Login, ctxhttp_Get, http_NewRequest, ctxhttp_Do.
    change (Values_Set "password" password (Values_Set "username" username []))
      with [("username", username); ("password", password)].
    fold urlStr. rewrite Hurl. fold req. rewrite Hrt.
    destruct (negb (Response.StatusCode r =? 200)); [reflexivity|].
    now destruct (find _ _). }
  clearbody res. subst res.
  assert (Hfound : forall cookie,
    find (fun cook => (Cookie.Name cook =? "hoverauth")%string
                      && negb (Cookie.Value cook =? EmptyString)%string)
         (Response.Cookies r) = Some cookie ->
    In cookie (Response.Cookies r)
    /\ Cookie.Name cookie = "hoverauth" /\ Cookie.Value cookie <> EmptyString).
  { intros cookie Hf. apply find_some in Hf. destruct Hf as [Hin Hp].
    apply andb_prop in Hp. destruct Hp as [Hn Hv].
    apply String.eqb_eq in Hn. apply negb_true_iff, String.eqb_neq in Hv.
    auto. }
  assert (Hdiff : badStatus <> noCookie)
    by (subst badStatus noCookie; cbn; discriminate).
  destruct (Z.eqb_spec (Response.StatusCode r) 200) as [Hcode|Hcode]; cbn [negb].
  - destruct (find _ _) as [c0|] eqn:Hf.
    + destruct (Hfound c0 eq_refl) as (Hin & Hn & Hv).
      split; [split|].
      * intros _. split; [exact Hcode|now exists c0].
      * intros _. now exists c0.
      * split; [intros cookie H; injection H as <-; auto|].
        split; [intros H; contradiction|].
        split; [|exact Hdiff].
        intros _ Hno. exfalso. apply Hno. now exists c0.
    + split; [split|].
      * intros [cookie Hc]. discriminate.
      * intros [_ (c0 & Hin & Hn & Hv)].
        pose proof (find_none _ _ Hf c0 Hin) as Hp. cbn beta in Hp.
        rewrite Hn, String.eqb_refl in Hp. cbn [andb] in Hp.
        apply negb_false_iff, String.eqb_eq in Hp. contradiction.
      * split; [intros cookie H; discriminate|].
        split; [intros H; contradiction|].
        split; [reflexivity|exact Hdiff].
  - split; [split|].
    + intros [cookie Hc]. discriminate.
    + intros [Hc _]. contradiction.
    + split; [intros cookie H; discriminate|].
      split; [reflexivity|].
      split; [intros H; contradiction|exact Hdiff].
Qed.


End ClientProperties.

(** ** The properties on the test doubles *)


(** The APIError of the envelope E1/bad at status 400, for each of the six
    operations. *)
Example refused_at_400_every_operation :
  let failure (op : Op) :=
    fst (Double.callWith Double.refused 400 op)
    = (nilPayload op,
       Some (APIErr {| StatusCode := 400; ErrorCode := "E1"; ErrorMsg := "bad" |})) in
  let rec := {| NewDNSRecord.Type_ := TXT; NewDNSRecord.Name := "_acme";
                NewDNSRecord.Content := "token";
                NewDNSRecord.TTL := 900 * GoTime.Second |} in
  failure OpDomains /\ failure OpDNS /\ failure (OpGetDomain "d1")
  /\ failure (OpGetDNSDomains "d1") /\ failure (OpAddDNSRecord "d1" rec)
  /\ failure (OpDeleteDNSRecord "r1").
Proof. repeat split. Qed.



(** C5 at a response with status 200 and the cookie hoverauth=abc123. *)
Lemma C5_Login_witness :
  exists cookie : Cookie.t,
    fst (Double.loginWith 200 [Double.loginCookie]) = (Some cookie, None).
Proof.
  apply (proj1 (C5_Login_outcomes
                  unit unit Double.acceptURL GoURL.Encode tt
                  (Double.fixedTransport
                     (inl {| Response.StatusCode := 200;
                             Response.Cookies := [Double.loginCookie];
                             Response.Body := inl [] |}))
                  "user" "secret" Double.start _ tt eq_refl eq_refl)).
  split; [reflexivity|].
  exists Double.loginCookie. cbn. repeat split; auto. discriminate.
Defined.

(** The three login responses of the specification. *)
Example Login_responses :
  fst (Double.loginWith 200 [Double.loginCookie])
  = (Some {| Cookie.Name := "hoverauth"; Cookie.Value := "abc123" |}, None)
  /\ fst (Double.loginWith 200
            [{| Cookie.Name := "session"; Cookie.Value := "abc123" |};
             {| Cookie.Name := "hoverauth"; Cookie.Value := EmptyString |}])
     = (None, Some (InvalidLogin
                      "unable to find 'hoverauth' cookie with data in response"))
  /\ fst (Double.loginWith 403 [Double.loginCookie])
     = (None, Some (InvalidLogin "login HTTP status code was 403")).
Proof. repeat split. Qed.


(** * Further properties of the package *)

(** ** The shape test of the quoted decoders *)

Lemma isQuoted_quoted (content : bytes) : isQuoted (quoted content) = true.
Proof.
  unfold quoted. destruct content as [|c content].
  - reflexivity.
  - cbn [isQuoted app].
    change (dquote :: c :: content ++ [dquote])
      with ((dquote :: c :: content) ++ [dquote]).
    now rewrite last_last.
Qed.

Lemma isQuoted_inv (b : bytes) :
  isQuoted b = true -> exists content, b = quoted content.
Proof.
  destruct b as [|c [|x rest]]; try discriminate.
  intros H. unfold isQuoted in H.
  destruct (exists_last (l := x :: rest)) as (mid & z & Hmid); [discriminate|].
  rewrite Hmid in *.
  change (c :: mid ++ [z]) with ((c :: mid) ++ [z]) in H.
  rewrite last_last in H.
  apply andb_prop in H. destruct H as [Hc Hz].
  apply Byte.byte_dec_bl in Hc. apply Byte.byte_dec_bl in Hz. subst c z.
  now exists mid.
Qed.

Lemma shapeTest_lone : shapeTest [dquote] = Returned true.
Proof. reflexivity. Qed.

(** Apart from the empty input and the lone double quote, the shape test
    returns, and passes exactly on the quoted values. *)
Lemma shapeTest_other (b : bytes) :
  b <> [] -> b <> [dquote] -> shapeTest b = Returned (isQuoted b).
Proof.
  intros Hne Hlone.
  destruct b as [|c rest]; [contradiction|].
  unfold shapeTest, andalso, byteIs. rewrite index_first. cbn [obind].
  destruct rest as [|x rest'].
  - destruct (Byte.eqb c dquote) eqn:Ec; [|reflexivity].
    apply Byte.byte_dec_bl in Ec. subst c. contradiction.
  - destruct (exists_last (l := x :: rest')) as (mid & z & Hmid); [discriminate|].
    rewrite Hmid. unfold isQuoted.
    destruct (mid ++ [z]) as [|y ys] eqn:Eys; [now destruct mid|].
    rewrite <- Eys.
    change (c :: mid ++ [z]) with ((c :: mid) ++ [z]).
    rewrite index_last, last_last.
    now destruct (Byte.eqb c dquote).
Qed.

Lemma lone_dec (b : bytes) : {b = [dquote]} + {b <> [dquote]}.
Proof. apply list_eq_dec, Byte.byte_eq_dec. Qed.

Lemma quoted_not_lone (content : bytes) : quoted content <> [dquote].
Proof. unfold quoted. destruct content; discriminate. Qed.

(** A decoder body seen through the shape test. *)
Ltac by_shape b :=
  change (andalso (byteIs b 0 dquote) (byteIs b (len b - 1) dquote))
    with (shapeTest b).

(** ** Scalar codecs: the full behaviour *)

(** The string-like decoders return a nil error exactly on the quoted
    values, and the value decoded is the text between the quotes, byte for
    byte: a RecordType is an open enumeration. *)
Theorem string_decoders_succeed_exactly_on_quoted
  (Quote : string -> string) (old v : string) (b : bytes) :
  (RecordType_UnmarshalJSON Quote old b = Returned (v, None)
   <-> exists content, b = quoted content /\ v = string_of_list_byte content)
  /\ (DomainID_UnmarshalJSON Quote old b = Returned (v, None)
      <-> exists content, b = quoted content /\ v = string_of_list_byte content)
  /\ (DNSRecordID_UnmarshalJSON Quote old b = Returned (v, None)
      <-> exists content, b = quoted content /\ v = string_of_list_byte content).
Proof.
  assert (Hback : forall content,
    slice (quoted content) 1 (len (quoted content) - 1) = Returned content)
    by exact quoted_strip.
  unfold RecordType_UnmarshalJSON, DomainID_UnmarshalJSON,
    DNSRecordID_UnmarshalJSON. by_shape b.
  destruct b as [|c rest] eqn:Eb.
  { repeat split; try discriminate;
      intros (content & Hc & _); unfold quoted in Hc; discriminate. }
  rewrite <- Eb in *.
  destruct (lone_dec b) as [Hlone|Hlone].
  { rewrite Hlone.
    repeat split; try discriminate;
      intros (content & Hc & _); now apply eq_sym, quoted_not_lone in Hc. }
  rewrite (shapeTest_other b) by congruence. cbn [obind].
  destruct (isQuoted b) eqn:Hq.
  - apply isQuoted_inv in Hq. destruct Hq as [content ->].
    rewrite Hback. cbn [obind].
    assert (Hinj : forall c1 c2 : bytes, quoted c1 = quoted c2 -> c1 = c2).
    { unfold quoted. intros c1 c2 H. injection H as H.
      now apply app_inv_tail in H. }
    repeat split.
    all: try (intros H; injection H as <-; now exists content).
    all: intros (c2 & Hc & ->); now rewrite (Hinj _ _ Hc).
  - repeat split; try discriminate.
    all: intros (content & Hc & _); rewrite Hc, isQuoted_quoted in Hq;
      discriminate.
Qed.

(** The five quoted decoders panic on exactly two inputs: the empty one and
    the lone double quote. *)
Theorem quoted_decoders_panic_exactly_on_two_inputs
  (Quote : string -> string)
  (time_Parse : string -> string -> GoTime.Time * option string)
  (s : string) (d : Date) (ym : YearMonth) (b : bytes) :
  let panics {A : Type} (m : outcome A) := exists p, m = Panicked p in
  (panics (RecordType_UnmarshalJSON Quote s b) <-> b = [] \/ b = [dquote])
  /\ (panics (DomainID_UnmarshalJSON Quote s b) <-> b = [] \/ b = [dquote])
  /\ (panics (DNSRecordID_UnmarshalJSON Quote s b) <-> b = [] \/ b = [dquote])
  /\ (panics (Date_UnmarshalJSON Quote time_Parse d b)
      <-> b = [] \/ b = [dquote])
  /\ (panics (YearMonth_UnmarshalJSON Quote time_Parse ym b)
      <-> b = [] \/ b = [dquote]).
Proof.
  intros panics. subst panics. cbv beta.
  unfold RecordType_UnmarshalJSON, DomainID_UnmarshalJSON,
    DNSRecordID_UnmarshalJSON, Date_UnmarshalJSON, YearMonth_UnmarshalJSON.
  by_shape b.
  destruct b as [|c rest] eqn:Eb.
  { repeat split; intros _; try (now left); now eexists. }
  rewrite <- Eb in *.
  destruct (lone_dec b) as [Hlone|Hlone].
  { rewrite Hlone. repeat split; intros _; try (now right); now eexists. }
  assert (Hne : b <> []) by congruence.
  rewrite (shapeTest_other b Hne Hlone). cbn [obind].
  destruct (isQuoted b) eqn:Hq.
  - apply isQuoted_inv in Hq. destruct Hq as [content ->].
    rewrite quoted_strip. cbn [obind].
    repeat split; try (intros [H|H]; contradiction).
    all: try (intros [p H]; discriminate).
    all: destruct (time_Parse _ _); intros [p H]; discriminate.
  - repeat split; try (intros [H|H]; contradiction).
    all: intros [p H]; discriminate.
Qed.

(** On every other input, that is one that is not empty, not a lone
    double quote and not quoted, each quoted decoder returns an error that
    embeds the Go-quoted raw input and leaves its receiver as it was. *)
Theorem quoted_decoders_reject_other_shapes
  (Quote : string -> string)
  (time_Parse : string -> string -> GoTime.Time * option string)
  (s : string) (d : Date) (ym : YearMonth) (b : bytes) :
  b <> [] -> b <> [dquote] -> isQuoted b = false ->
  let raw := Quote (string_of_list_byte b) in
  RecordType_UnmarshalJSON Quote s b
  = Returned (s, Some (errorString ("unable to parse a RecordType from " ++ raw)%string))
  /\ DomainID_UnmarshalJSON Quote s b
     = Returned (s, Some (errorString
                            ("unable to parse a DNSRecordID from " ++ raw)%string))
  /\ DNSRecordID_UnmarshalJSON Quote s b
     = Returned (s, Some (errorString
                            ("unable to parse a DNSRecordID from " ++ raw)%string))
  /\ Date_UnmarshalJSON Quote time_Parse d b
     = Returned (d, Some (errorString ("unable to parse a Date from " ++ raw)%string))
  /\ YearMonth_UnmarshalJSON Quote time_Parse ym b
     = Returned (ym, Some (errorString
                             ("unable to parse a YearMonth from " ++ raw)%string)).
Proof.
  intros Hne Hlone Hq raw.
  unfold RecordType_UnmarshalJSON, DomainID_UnmarshalJSON,
    DNSRecordID_UnmarshalJSON, Date_UnmarshalJSON, YearMonth_UnmarshalJSON.
  by_shape b. rewrite (shapeTest_other b Hne Hlone), Hq. cbn [obind].
  repeat split.
Qed.

(** The rejection at the JSON literal null. *)
Lemma quoted_decoders_reject_witness :
  RecordType_UnmarshalJSON GoStrconv.Quote TXT (list_byte_of_string "null")
  = Returned (TXT, Some (errorString
      ("unable to parse a RecordType from " ++ GoStrconv.Quote "null")%string)).
Proof.
  refine (proj1 (quoted_decoders_reject_other_shapes
                   GoStrconv.Quote GoTime.Parse TXT
                   {| Date_Time := GoTime.zero |}
                   {| YearMonth_Time := GoTime.zero |}
                   (list_byte_of_string "null") _ _ _)).
  - cbv. discriminate.
  - cbv. discriminate.
  - reflexivity.
Defined.

(** On a quoted value the Date and YearMonth decoders always overwrite
    their receiver with the time [time.Parse] returned, also when the parse
    failed, and the error they return carries the message of the parse
    error. *)
Theorem date_decoders_overwrite_receiver
  (Quote : string -> string)
  (time_Parse : string -> string -> GoTime.Time * option string)
  (d : Date) (ym : YearMonth) (content : bytes) :
  Date_UnmarshalJSON Quote time_Parse d (quoted content)
  = Returned
      ({| Date_Time := fst (time_Parse "2006-01-02" (string_of_list_byte content)) |},
       Some (errorString
         ("unable to parse the Date string: "
          ++ fmt_s (snd (time_Parse "2006-01-02" (string_of_list_byte content))))%string))
  /\ YearMonth_UnmarshalJSON Quote time_Parse ym (quoted content)
     = Returned
         ({| YearMonth_Time :=
               fst (time_Parse "2006/01" (string_of_list_byte content)) |},
          Some (errorString
            ("unable to parse the YearMonth string: "
             ++ fmt_s (snd (time_Parse "2006/01" (string_of_list_byte content))))%string)).
Proof.
  unfold Date_UnmarshalJSON, YearMonth_UnmarshalJSON.
  rewrite quoted_test. cbn [obind]. rewrite quoted_strip. cbn [obind].
  split.
  - now destruct (time_Parse "2006-01-02" _).
  - now destruct (time_Parse "2006/01" _).
Qed.

(** With the parser of the Go library, a quoted value that is not a date
    resets a receiver that held a date to the zero time. *)
Example Date_receiver_reset :
  Date_UnmarshalJSON GoStrconv.Quote GoTime.Parse
    {| Date_Time := ymd 2020 3 5 |} (quoted (list_byte_of_string "2020-02-30"))
  = Returned ({| Date_Time := GoTime.zero |},
              Some (errorString
                ("unable to parse the Date string: "
                 ++ fmt_s (snd (GoTime.Parse "2006-01-02" "2020-02-30")))%string)).
Proof. reflexivity. Qed.

(** ** TTL: decimal text and durations *)

Lemma digits_uint_acc (d : Decimal.uint) :
  forall acc : positive,
    GoStrconv.digits (list_byte_of_string (NilEmpty.string_of_uint d)) (Z.pos acc)
    = Some (Z.pos (Pos.of_uint_acc d acc)).
Proof.
  induction d as [|d IH|d IH|d IH|d IH|d IH|d IH|d IH|d IH|d IH|d IH];
    intros acc; [reflexivity|..];
    cbn [NilEmpty.string_of_uint list_byte_of_string map list_ascii_of_string
         GoStrconv.digits Pos.of_uint_acc];
    (match goal with
     | |- context [GoStrconv.isDigit ?c] =>
         change (GoStrconv.isDigit c) with true; cbv iota
     end);
    (match goal with
     | |- context [GoStrconv.digitVal ?c] =>
         let v := eval vm_compute in (GoStrconv.digitVal c) in
         change (GoStrconv.digitVal c) with v
     end);
    (match goal with
     | |- GoStrconv.digits _ ?x = Some (Z.pos (Pos.of_uint_acc _ ?y)) =>
         replace x with (Z.pos y) by lia
     end);
    apply IH.
Qed.

Lemma digits_uint (d : Decimal.uint) :
  GoStrconv.digits (list_byte_of_string (NilEmpty.string_of_uint d)) 0
  = Some (Z.of_N (Pos.of_uint d)).
Proof.
  induction d as [|d IH|d IH|d IH|d IH|d IH|d IH|d IH|d IH|d IH|d IH];
    [reflexivity|exact IH|..];
    cbn [NilEmpty.string_of_uint list_byte_of_string map list_ascii_of_string
         GoStrconv.digits Pos.of_uint];
    (match goal with
     | |- context [GoStrconv.isDigit ?c] =>
         change (GoStrconv.isDigit c) with true; cbv iota
     end);
    (match goal with
     | |- context [GoStrconv.digitVal ?c] =>
         let v := eval vm_compute in (GoStrconv.digitVal c) in
         change (GoStrconv.digitVal c) with v
     end);
    (match goal with
     | |- GoStrconv.digits _ ?x = Some (Z.of_N (N.pos (Pos.of_uint_acc _ ?y))) =>
         change x with (Z.pos y)
     end);
    apply digits_uint_acc.
Qed.

Lemma Atoi_unsigned (s : string) (c : byte) (rest : bytes) (v : Z) :
  list_byte_of_string s = c :: rest ->
  Byte.eqb c x2d = false -> Byte.eqb c x2b = false ->
  GoStrconv.digits (c :: rest) 0 = Some v ->
  GoStrconv.minInt <= v <= GoStrconv.maxInt ->
  GoStrconv.Atoi s = Some v.
Proof.
  intros Hs Hm Hp Hd Hr. unfold GoStrconv.Atoi.
  rewrite Hs, Hm, Hp, Hd.
  replace (GoStrconv.minInt <=? v) with true by (symmetry; apply Z.leb_le; lia).
  replace (v <=? GoStrconv.maxInt) with true by (symmetry; apply Z.leb_le; lia).
  reflexivity.
Qed.

Lemma Atoi_negative (s : string) (c : byte) (rest : bytes) (v : Z) :
  list_byte_of_string s = x2d :: c :: rest ->
  GoStrconv.digits (c :: rest) 0 = Some v ->
  GoStrconv.minInt <= - v <= GoStrconv.maxInt ->
  GoStrconv.Atoi s = Some (- v).
Proof.
  intros Hs Hd Hr. unfold GoStrconv.Atoi.
  rewrite Hs. change (Byte.eqb x2d x2d) with true. cbv iota. rewrite Hd.
  replace (GoStrconv.minInt <=? - v) with true by (symmetry; apply Z.leb_le; lia).
  replace (- v <=? GoStrconv.maxInt) with true by (symmetry; apply Z.leb_le; lia).
  reflexivity.
Qed.

(** The text of a numeral starts with a digit. *)
Lemma uint_bytes (d : Decimal.uint) :
  d <> Decimal.Nil ->
  exists c rest,
    list_byte_of_string (NilEmpty.string_of_uint d) = c :: rest
    /\ Byte.eqb c x2d = false /\ Byte.eqb c x2b = false
    /\ NilZero.string_of_uint d = NilEmpty.string_of_uint d.
Proof.
  intros Hd. destruct d; [contradiction|..];
    cbn [NilEmpty.string_of_uint list_byte_of_string map list_ascii_of_string];
    eexists; eexists; repeat split.
Qed.

(** [strconv.Atoi] reads back what [strconv.Itoa] writes. *)
Lemma Atoi_Itoa (n : Z) :
  GoStrconv.minInt <= n <= GoStrconv.maxInt ->
  GoStrconv.Atoi (GoStrconv.Itoa n) = Some n.
Proof.
  intros Hr. unfold GoStrconv.Itoa.
  destruct n as [|p|p]; [reflexivity| |]; cbn [Z.to_int NilZero.string_of_int].
  - destruct (uint_bytes (Pos.to_uint p) (Unsigned.to_uint_nonnil p))
      as (c & rest & Hb & Hm & Hp & ->).
    apply (Atoi_unsigned _ c rest); auto.
    rewrite <- Hb, digits_uint, Unsigned.of_to. reflexivity.
  - destruct (uint_bytes (Pos.to_uint p) (Unsigned.to_uint_nonnil p))
      as (c & rest & Hb & Hm & Hp & ->).
    change (Z.neg p) with (- Z.pos p).
    apply (Atoi_negative _ c rest).
    + cbn [list_byte_of_string map list_ascii_of_string].
      change (map byte_of_ascii
                (list_ascii_of_string
                   (NilEmpty.string_of_uint (Pos.to_uint p))))
        with (list_byte_of_string (NilEmpty.string_of_uint (Pos.to_uint p))).
      now rewrite Hb.
    + rewrite <- Hb, digits_uint, Unsigned.of_to. reflexivity.
    + change (- Z.pos p) with (Z.neg p). lia.
Qed.


Lemma int64_range (z : Z) : - 2 ^ 63 <= int64 z < 2 ^ 63.
Proof.
  unfold int64. pose proof (Z.mod_pos_bound (z + 2 ^ 63) (2 ^ 64)). lia.
Qed.



(** Beyond 9223372036 seconds the decoder still returns a nil error, but
    the product with [time.Second] has wrapped around: the duration
    decoded is not the number of seconds that was written. *)
Theorem TTL_decode_wraps_silently (ttl : TTL) (n : Z) :
  9223372036 < n <= GoStrconv.maxInt ->
  exists t : TTL,
    TTL_UnmarshalJSON ttl (list_byte_of_string (GoStrconv.Itoa n))
    = Returned (t, None)
    /\ t <> n * GoTime.Second
    /\ - 2 ^ 63 <= t < 2 ^ 63
    /\ (t - n * GoTime.Second) mod 2 ^ 64 = 0.
Proof.
  intros Hn. exists (int64 (n * GoTime.Second)).
  unfold TTL_UnmarshalJSON.
  rewrite string_of_list_byte_of_string, Atoi_Itoa
    by (unfold GoStrconv.minInt, GoStrconv.maxInt in *; lia).
  split; [reflexivity|].
  pose proof (int64_range (n * GoTime.Second)) as Hr.
  split; [|split; [exact Hr|]].
  - unfold GoTime.Second in *. lia.
  - unfold int64.
    replace ((n * GoTime.Second + 2 ^ 63) mod 2 ^ 64 - 2 ^ 63 - n * GoTime.Second)
      with ((n * GoTime.Second + 2 ^ 63) mod 2 ^ 64 - (n * GoTime.Second + 2 ^ 63))
      by lia.
    rewrite Zminus_mod, Z.mod_mod, Z.sub_diag by lia. reflexivity.
Qed.

(** The wrap at 9223372037 seconds: a negative duration. *)
Lemma TTL_decode_wraps_witness :
  exists t : TTL,
    TTL_UnmarshalJSON 0 (list_byte_of_string "9223372037") = Returned (t, None)
    /\ t <> 9223372037 * GoTime.Second
    /\ - 2 ^ 63 <= t < 2 ^ 63
    /\ (t - 9223372037 * GoTime.Second) mod 2 ^ 64 = 0.
Proof.
  apply (TTL_decode_wraps_silently 0 9223372037).
  unfold GoStrconv.maxInt. lia.
Defined.

(** ** The client: every way a call can end *)

(** Opens an operation whose arguments passed its checks, down to its
    call of [do]. *)
Ltac past_checks op :=
  destruct op as [| |?domainID|?domainID|?domainID ?rec|?dnsID];
  cbn [call precondition requestOf nilPayload Request.URL] in *;
  unfold Domains, DNS, GetDomain, GetDNSDomains, AddDNSRecord, DeleteDNSRecord;
  repeat match goal with
    | H : context [(?x =? EmptyString)%string] |- _ =>
        destruct (x =? EmptyString)%string; [discriminate|]
    end;
  try change (Values_Set "ttl" ?a (Values_Set "content" ?b
               (Values_Set "name" ?d (Values_Set "type" ?e []))))
    with [("type", e); ("name", d); ("content", b); ("ttl", a)].

Section ClientExtras.

Variables (Any Context Net : Type).
Variable url_Parse_err : string -> option string.
Variable Encode : Values -> string.
Context {U_hoverResp : Unmarshal hoverResp.t}
        {U_domainsResp : Unmarshal (domainsResp Any)}
        {U_domainResp : Unmarshal (domainResp Any)}
        {U_dnsDomainsResp : Unmarshal dnsDomainsResp}.

Implicit Types (c : Client Context Net) (ctx : Context) (w : World Net).

(** [do], stage by stage. *)
Lemma do_stages {T : Type} {U : Unmarshal T}
  c ctx (obj : T) (method urlStr : string) w :
  let req := {| Request.Method := method; Request.URL := urlStr;
                Request.Cookies := [cook c] |} in
  do url_Parse_err c ctx obj method urlStr w
  = match url_Parse_err urlStr with
    | Some msg => ((obj, -1, Some (foreign msg)), w)
    | None =>
        match Do (hc c) ctx req (net w) with
        | (inr e, n) => ((obj, -1, Some e), after w req n)
        | (inl resp, n) =>
            match Response.Body resp with
            | inr e => ((obj, -1, Some e), after w req n)
            | inl body =>
                ((fst (json_Unmarshal body obj), Response.StatusCode resp,
                  snd (json_Unmarshal body obj)), after w req n)
            end
        end
    end.
Proof.
  intros req. unfold do, http_NewRequest, ctxhttp_Do.
  destruct (url_Parse_err urlStr); [reflexivity|].
  unfold Request.AddCookie. cbn [Request.Method Request.URL Request.Cookies app].
  fold req.
  destruct (Do (hc c) ctx req (net w)) as [[resp|e] n]; [|reflexivity].
  destruct (Response.Body resp); [|reflexivity].
  now destruct (json_Unmarshal _ _).
Qed.

(** What [do] adds to the log of requests. *)
Lemma do_log {T : Type} {U : Unmarshal T}
  c ctx (obj : T) (method urlStr : string) w :
  sent (snd (do url_Parse_err c ctx obj method urlStr w))
  = sent w ++ match url_Parse_err urlStr with
              | Some _ => []
              | None => [{| Request.Method := method; Request.URL := urlStr;
                            Request.Cookies := [cook c] |}]
              end.
Proof.
  rewrite do_stages.
  destruct (url_Parse_err urlStr); [now rewrite app_nil_r|].
  destruct (Do _ _ _ _) as [[resp|e] n]; [|reflexivity].
  now destruct (Response.Body resp).
Qed.

(** An operation of the catalog, stage by stage: the checks on the
    arguments, the construction of the request, the transport, the reading
    of the body, the decoding, the envelope. *)
Lemma call_stages c ctx (op : Op) w :
  let req := requestOf Encode c op in
  call url_Parse_err Encode c ctx op w
  = match precondition op with
    | Some e => ((nilPayload op, Some e), w)
    | None =>
        match url_Parse_err (Request.URL req) with
        | Some msg => ((nilPayload op, Some (foreign msg)), w)
        | None =>
            match Do (hc c) ctx req (net w) with
            | (inr e, n) => ((nilPayload op, Some e), after w req n)
            | (inl resp, n) =>
                match Response.Body resp with
                | inr e => ((nilPayload op, Some e), after w req n)
                | inl body =>
                    match decoded op body with
                    | (_, _, Some e) =>
                        ((nilPayload op, Some e), after w req n)
                    | (env, pl, None) =>
                        if hoverResp.Succeeded env
                        then ((pl, None), after w req n)
                        else ((nilPayload op,
                               Some (APIErr
                                 {| StatusCode := Response.StatusCode resp;
                                    ErrorCode := hoverResp.ErrorCode env;
                                    ErrorMsg := hoverResp.Error env |})),
                              after w req n)
                    end
                end
            end
        end
    end.
Proof.
  intros req.
  destruct (precondition op) as [e|] eqn:Hpre.
  { now apply call_rejected. }
  destruct (url_Parse_err (Request.URL req)) as [msg|] eqn:Hurl.
  { subst req.
    past_checks op;
      rewrite do_stages, Hurl; reflexivity. }
  destruct (Do (hc c) ctx req (net w)) as [[resp|e] n] eqn:Hdo.
  2:{ subst req.
      past_checks op;
        rewrite do_stages, Hurl, Hdo; reflexivity. }
  destruct (Response.Body resp) as [body|e] eqn:Hbody.
  2:{ subst req.
      past_checks op;
        rewrite do_stages, Hurl, Hdo, Hbody; reflexivity. }
  destruct (decoded op body) as [[env pl] err] eqn:Hdec.
  rewrite (call_answered _ _ _ _ _ _ _ _ _ _ _ _ _ _ _
             Hpre Hurl Hdo Hbody Hdec).
  destruct err; [reflexivity|].
  now destruct (hoverResp.Succeeded env).
Qed.

(** No operation retries or fans out: a call whose arguments fail the
    checks, or whose URL [http.NewRequest] refuses, leaves the world
    untouched; every other call hands exactly one request to the
    transport, whatever happens afterwards. *)
Theorem call_sends_at_most_one_request c ctx (op : Op) w :
  let req := requestOf Encode c op in
  let w' := snd (call url_Parse_err Encode c ctx op w) in
  match precondition op, url_Parse_err (Request.URL req) with
  | None, None => sent w' = sent w ++ [req]
  | _, _ => w' = w
  end.
Proof.
  intros req w'. subst w'. rewrite call_stages. fold req.
  destruct (precondition op); [reflexivity|].
  destruct (url_Parse_err (Request.URL req)); [reflexivity|].
  destruct (Do (hc c) ctx req (net w)) as [[resp|e] n]; [|reflexivity].
  destruct (Response.Body resp); [|reflexivity].
  destruct (decoded op _) as [[env pl] [e|]]; [reflexivity|].
  now destruct (hoverResp.Succeeded env).
Qed.

(** An error of the transport, or of reading the body, is returned as it
    is, with nil results, by every operation. *)
Theorem call_returns_transport_error c ctx (op : Op) w
  (r : Response.t + error) (n : Net) (e : error) :
  precondition op = None ->
  url_Parse_err (Request.URL (requestOf Encode c op)) = None ->
  Do (hc c) ctx (requestOf Encode c op) (net w) = (r, n) ->
  r = inr e \/ (exists resp, r = inl resp /\ Response.Body resp = inr e) ->
  call url_Parse_err Encode c ctx op w
  = ((nilPayload op, Some e), after w (requestOf Encode c op) n).
Proof.
  intros Hpre Hurl Hdo Hr.
  rewrite call_stages. cbv zeta. rewrite Hpre, Hurl, Hdo.
  destruct Hr as [->|(resp & -> & Hbody)]; [reflexivity|].
  now rewrite Hbody.
Qed.

(** When [http.NewRequest] refuses the URL the call fails with that error
    and nothing reaches the transport. *)
Theorem call_refused_url c ctx (op : Op) w (msg : string) :
  precondition op = None ->
  url_Parse_err (Request.URL (requestOf Encode c op)) = Some msg ->
  call url_Parse_err Encode c ctx op w = ((nilPayload op, Some (foreign msg)), w).
Proof.
  intros Hpre Hurl. rewrite call_stages. cbv zeta. now rewrite Hpre, Hurl.
Qed.

(** A decoding error comes before the envelope: the call returns it with
    nil results, also when the envelope decoded so far has [succeeded]
    true or carries an error code. *)
Theorem call_decode_error_first c ctx (op : Op) w
  (resp : Response.t) (n : Net) (body : bytes)
  (env : hoverResp.t) (pl : Payload Any) (e : error) :
  precondition op = None ->
  url_Parse_err (Request.URL (requestOf Encode c op)) = None ->
  Do (hc c) ctx (requestOf Encode c op) (net w) = (inl resp, n) ->
  Response.Body resp = inl body ->
  decoded op body = (env, pl, Some e) ->
  call url_Parse_err Encode c ctx op w
  = ((nilPayload op, Some e), after w (requestOf Encode c op) n).
Proof.
  intros Hpre Hurl Hdo Hbody Hdec.
  rewrite call_stages. cbv zeta. now rewrite Hpre, Hurl, Hdo, Hbody, Hdec.
Qed.

(** An operation returns a nil error only after a full exchange: its
    arguments passed the checks, one request was answered, the body was
    read and decoded without error, and the envelope has [succeeded]
    true; the payload returned is the decoded one. *)
Theorem call_succeeds_only_on_accepted_envelope c ctx (op : Op) w :
  snd (fst (call url_Parse_err Encode c ctx op w)) = None ->
  exists resp n body env pl,
    precondition op = None
    /\ url_Parse_err (Request.URL (requestOf Encode c op)) = None
    /\ Do (hc c) ctx (requestOf Encode c op) (net w) = (inl resp, n)
    /\ Response.Body resp = inl body
    /\ decoded op body = (env, pl, None)
    /\ hoverResp.Succeeded env = true
    /\ call url_Parse_err Encode c ctx op w
       = ((pl, None), after w (requestOf Encode c op) n).
Proof.
  rewrite call_stages. cbv zeta.
  destruct (precondition op); [discriminate|].
  destruct (url_Parse_err _); [discriminate|].
  destruct (Do _ _ _ _) as [[resp|e] n]; [|discriminate].
  destruct (Response.Body resp) as [body|e] eqn:Hbody; [|discriminate].
  destruct (decoded op body) as [[env pl] [e|]] eqn:Hdec; [discriminate|].
  destruct (hoverResp.Succeeded env) eqn:Hok; [|discriminate].
  intros _. exists resp, n, body, env, pl. repeat split; auto.
Qed.

(** Identifiers go into the path as they are.  A domainID that ends in
    /dns makes GetDomain send the very request GetDNSDomains sends for the
    identifier without that ending. *)
Theorem GetDomain_path_is_not_escaped c ctx (domainID : DomainID) w :
  domainID <> EmptyString ->
  sent (snd (GetDomain url_Parse_err c ctx (domainID ++ "/dns")%string w))
  = sent (snd (GetDNSDomains url_Parse_err c ctx domainID w)).
Proof.
  intros Hne. unfold GetDomain, GetDNSDomains.
  apply String.eqb_neq in Hne. rewrite Hne.
  replace ((domainID ++ "/dns") =? EmptyString)%string with false
    by (symmetry; apply String.eqb_neq; destruct domainID; discriminate).
  match goal with
  | |- context [do url_Parse_err c ctx ?o ?m ?u w] =>
      pose proof (do_log c ctx o m u w) as H1;
      destruct (do url_Parse_err c ctx o m u w) as [[[dr1 code1] err1] w1]
  end.
  match goal with
  | |- context [do url_Parse_err c ctx ?o ?m ?u w] =>
      pose proof (do_log c ctx o m u w) as H2;
      destruct (do url_Parse_err c ctx o m u w) as [[[dr2 code2] err2] w2]
  end.
  cbn [snd] in H1, H2.
  assert (Hw : sent w1 = sent w2) by congruence.
  destruct err1, err2; try destruct (negb _); try destruct (negb _); exact Hw.
Qed.

(** AddDNSRecord sends whole seconds, rounded towards zero: the part of a
    TTL below one second changes nothing in what the call does. *)
Theorem AddDNSRecord_drops_fraction_of_second c ctx (domainID : DomainID)
  (ty : RecordType) (name content : string) (k r : Z) w :
  0 <= k -> 0 <= r < GoTime.Second ->
  AddDNSRecord url_Parse_err Encode c ctx domainID
    {| NewDNSRecord.Type_ := ty; NewDNSRecord.Name := name;
       NewDNSRecord.Content := content;
       NewDNSRecord.TTL := k * GoTime.Second + r |} w
  = AddDNSRecord url_Parse_err Encode c ctx domainID
      {| NewDNSRecord.Type_ := ty; NewDNSRecord.Name := name;
         NewDNSRecord.Content := content;
         NewDNSRecord.TTL := k * GoTime.Second |} w.
Proof.
  intros Hk Hr. unfold AddDNSRecord. cbn [NewDNSRecord.TTL].
  replace (Z.quot (k * GoTime.Second + r) GoTime.Second) with k.
  - now rewrite Z.quot_mul by (unfold GoTime.Second; lia).
  - unfold GoTime.Second in *.
    rewrite Z.quot_div_nonneg by lia.
    apply Z.div_unique with r; lia.
Qed.

End ClientExtras.

(** ** Login and the session *)

Section LoginExtras.

Variables (Any Context Net : Type).
Variable url_Parse_err : string -> option string.
Variable Encode : Values -> string.
Context {U_hoverResp : Unmarshal hoverResp.t}
        {U_domainsResp : Unmarshal (domainsResp Any)}
        {U_domainResp : Unmarshal (domainResp Any)}
        {U_dnsDomainsResp : Unmarshal dnsDomainsResp}.

Implicit Types (client : http_Client Context Net) (ctx : Context) (w : World Net).

(** [Login], stage by stage. *)
Lemma Login_stages ctx client (username password : string) w :
  let urlStr :=
    (defaultURL ++ "/login?"
     ++ Encode [("username", username); ("password", password)])%string in
  let req := {| Request.Method := "GET"; Request.URL := urlStr;
                Request.Cookies := [] |} in
  Login url_Parse_err Encode ctx client username password w
  = match url_Parse_err urlStr with
    | Some msg => ((None, Some (foreign msg)), w)
    | None =>
        match Do client ctx req (net w) with
        | (inr e, n) => ((None, Some e), after w req n)
        | (inl r, n) =>
            (if negb (Response.StatusCode r =? 200) then
               (None, Some (InvalidLogin
                  ("login HTTP status code was "
                   ++ GoStrconv.Itoa (Response.StatusCode r))%string))
             else
               match find authentic (Response.Cookies r) with
               | None =>
                   (None, Some (InvalidLogin
                      "unable to find 'hoverauth' cookie with data in response"))
               | Some ck => (Some ck, None)
               end, after w req n)
        end
    end.
Proof.
  intros urlStr req.
  unfold Login, ctxhttp_Get, http_NewRequest, ctxhttp_Do.
  change (Values_Set "password" password (Values_Set "username" username []))
    with [("username", username); ("password", password)].
  fold urlStr. destruct (url_Parse_err urlStr); [reflexivity|].
  fold req. destruct (Do client ctx req (net w)) as [[r|e] n]; [|reflexivity].
  destruct (negb _); [reflexivity|].
  fold authentic. now destruct (find authentic _).
Qed.

(** Login makes at most one request: a GET without cookies whose query
    string carries the user name and the password.  Whatever the answer,
    nothing is tried again; when [http.NewRequest] refuses the URL nothing
    is sent at all. *)
Theorem Login_sends_one_plain_GET ctx client (username password : string) w :
  let urlStr :=
    (defaultURL ++ "/login?"
     ++ Encode [("username", username); ("password", password)])%string in
  let result := Login url_Parse_err Encode ctx client username password w in
  match url_Parse_err urlStr with
  | Some msg => result = ((None, Some (foreign msg)), w)
  | None =>
      sent (snd result)
      = sent w ++ [{| Request.Method := "GET"; Request.URL := urlStr;
                      Request.Cookies := [] |}]
  end.
Proof.
  intros urlStr result. subst result. rewrite Login_stages. fold urlStr.
  destruct (url_Parse_err urlStr); [reflexivity|].
  now destruct (Do _ _ _ _) as [[r|e] n].
Qed.

(** An error of the transport is returned by Login as it is, not as an
    InvalidLogin. *)
Theorem Login_returns_transport_error ctx client (username password : string) w
  (e : error) (n : Net) :
  let urlStr :=
    (defaultURL ++ "/login?"
     ++ Encode [("username", username); ("password", password)])%string in
  let req := {| Request.Method := "GET"; Request.URL := urlStr;
                Request.Cookies := [] |} in
  url_Parse_err urlStr = None ->
  Do client ctx req (net w) = (inr e, n) ->
  Login url_Parse_err Encode ctx client username password w
  = ((None, Some e), after w req n).
Proof.
  intros urlStr req Hurl Hdo. rewrite Login_stages. fold urlStr req.
  now rewrite Hurl, Hdo.
Qed.

(** Of several cookies Login returns the first one named hoverauth that
    has a value: cookies before it with another name or an empty value are
    skipped, cookies after it are not looked at. *)
Theorem Login_returns_first_authentic_cookie
  ctx client (username password : string) w (r : Response.t) (n : Net)
  (before after_ : list Cookie.t) (ck : Cookie.t) :
  let urlStr :=
    (defaultURL ++ "/login?"
     ++ Encode [("username", username); ("password", password)])%string in
  let req := {| Request.Method := "GET"; Request.URL := urlStr;
                Request.Cookies := [] |} in
  url_Parse_err urlStr = None ->
  Do client ctx req (net w) = (inl r, n) ->
  Response.StatusCode r = 200 ->
  Response.Cookies r = before ++ ck :: after_ ->
  (forall x, In x before ->
     Cookie.Name x <> "hoverauth" \/ Cookie.Value x = EmptyString) ->
  Cookie.Name ck = "hoverauth" -> Cookie.Value ck <> EmptyString ->
  fst (Login url_Parse_err Encode ctx client username password w)
  = (Some ck, None).
Proof.
  intros urlStr req Hurl Hdo Hcode Hcookies Hbefore Hname Hvalue.
  rewrite Login_stages. fold urlStr req. rewrite Hurl, Hdo, Hcode, Hcookies.
  cbn [Z.eqb Pos.eqb negb fst].
  assert (Hck : authentic ck = true).
  { unfold authentic. rewrite Hname, String.eqb_refl.
    apply String.eqb_neq in Hvalue. now rewrite Hvalue. }
  clear Hcookies. induction before as [|x before IH]; cbn [app find].
  - now rewrite Hck.
  - assert (Hx : authentic x = false).
    { unfold authentic. destruct (Hbefore x (or_introl eq_refl)) as [Hn|Hv].
      - apply String.eqb_neq in Hn. now rewrite Hn.
      - rewrite Hv, String.eqb_refl. apply andb_false_r. }
    rewrite Hx. apply IH. intros y Hy. apply Hbefore. now right.
Qed.

Lemma requestOf_cookies (c : Client Context Net) (op : Op) :
  Request.Cookies (requestOf Encode c op) = [cook c].
Proof. now destruct op. Qed.

(** The session: the cookie a successful Login returns is a hoverauth
    cookie with a value, and a client built from it attaches exactly that
    cookie to every request any operation sends. *)
Theorem Login_cookie_is_attached_to_every_request
  ctx client (username password : string) w w1 (ck : Cookie.t)
  (ctx' : Context) (op : Op) :
  Login url_Parse_err Encode ctx client username password w
  = ((Some ck, None), w1) ->
  let w2 := snd (call url_Parse_err Encode (NewClient client ck) ctx' op w1) in
  Cookie.Name ck = "hoverauth" /\ Cookie.Value ck <> EmptyString
  /\ (w2 = w1
      \/ exists req, sent w2 = sent w1 ++ [req] /\ Request.Cookies req = [ck]).
Proof.
  intros Hlogin w2.
  rewrite Login_stages in Hlogin.
  destruct (url_Parse_err _); [discriminate|].
  destruct (Do client _ _ _) as [[r|e] n]; [|discriminate].
  destruct (negb _); [discriminate|].
  destruct (find authentic (Response.Cookies r)) as [ck'|] eqn:Hfind;
    [|discriminate].
  injection Hlogin as -> _.
  apply find_some in Hfind. destruct Hfind as [_ Hck].
  apply andb_prop in Hck. destruct Hck as [Hn Hv].
  apply String.eqb_eq in Hn. apply negb_true_iff, String.eqb_neq in Hv.
  split; [exact Hn|]. split; [exact Hv|].
  subst w2. rewrite (call_stages Any Context Net url_Parse_err Encode).
  cbv zeta.
  destruct (precondition op); [now left|].
  destruct (url_Parse_err _); [now left|].
  right. exists (requestOf Encode (NewClient client ck) op).
  split; [|apply requestOf_cookies].
  destruct (Do _ _ _ _) as [[resp|e'] n']; [|reflexivity].
  destruct (Response.Body resp); [|reflexivity].
  destruct (decoded op _) as [[env pl] [e'|]]; [reflexivity|].
  now destruct (hoverResp.Succeeded env).
Qed.

End LoginExtras.

(** ** The request of AddDNSRecord on the wire *)





(** ** The further properties on the test doubles *)

(** A transport that cannot connect, under DNS. *)
Lemma call_returns_transport_error_witness :
  @call unit unit unit Double.acceptURL GoURL.Encode
    (Double.decodeEnvelope Double.accepted) (Double.decodeDomains Double.accepted)
    (Double.decodeDomain Double.accepted) (Double.decodeDNSDomains Double.accepted)
    Double.offlineClient tt OpDNS Double.start
  = ((PDNSDomains [], Some Double.unreachable),
     after Double.start (requestOf GoURL.Encode Double.offlineClient OpDNS) tt).
Proof.
  apply (call_returns_transport_error
           unit unit unit Double.acceptURL GoURL.Encode
           (U_hoverResp := Double.decodeEnvelope Double.accepted)
           (U_domainsResp := Double.decodeDomains Double.accepted)
           (U_domainResp := Double.decodeDomain Double.accepted)
           (U_dnsDomainsResp := Double.decodeDNSDomains Double.accepted)
           Double.offlineClient tt OpDNS Double.start
           (inr Double.unreachable) tt Double.unreachable);
    try reflexivity.
  now left.
Defined.

(** A URL that is refused, under DeleteDNSRecord. *)
Lemma call_refused_url_witness :
  @call unit unit unit Double.refuseURL GoURL.Encode
    (Double.decodeEnvelope Double.accepted) (Double.decodeDomains Double.accepted)
    (Double.decodeDomain Double.accepted) (Double.decodeDNSDomains Double.accepted)
    (Double.client 200) tt (OpDeleteDNSRecord "r1") Double.start
  = ((PNone, Some (foreign "net/url: invalid URL")), Double.start).
Proof.
  apply (call_refused_url
           unit unit unit Double.refuseURL GoURL.Encode
           (U_hoverResp := Double.decodeEnvelope Double.accepted)
           (U_domainsResp := Double.decodeDomains Double.accepted)
           (U_domainResp := Double.decodeDomain Double.accepted)
           (U_dnsDomainsResp := Double.decodeDNSDomains Double.accepted)
           (Double.client 200) tt (OpDeleteDNSRecord "r1") Double.start);
    reflexivity.
Defined.

(** A decoder that fails after it has filled in an envelope with
    [succeeded] true and a domain, under DNS. *)
Lemma call_decode_error_first_witness :
  let failing :=
    Double.fixedDecoder
      {| dnsDomainsResp_hoverResp := Double.accepted;
         dnsDomainsResp_DNSDomains := [Some Double.exampleDNSDomain] |}
      (Some Double.malformed) in
  @call unit unit unit Double.acceptURL GoURL.Encode
    (Double.decodeEnvelope Double.accepted) (Double.decodeDomains Double.accepted)
    (Double.decodeDomain Double.accepted) failing
    (Double.client 200) tt OpDNS Double.start
  = ((PDNSDomains [], Some Double.malformed),
     after Double.start (requestOf GoURL.Encode (Double.client 200) OpDNS) tt).
Proof.
  intros failing.
  apply (call_decode_error_first
           unit unit unit Double.acceptURL GoURL.Encode
           (U_hoverResp := Double.decodeEnvelope Double.accepted)
           (U_domainsResp := Double.decodeDomains Double.accepted)
           (U_domainResp := Double.decodeDomain Double.accepted)
           (U_dnsDomainsResp := failing)
           (Double.client 200) tt OpDNS Double.start
           (Double.answer 200) tt Double.body Double.accepted
           (PDNSDomains [Some Double.exampleDNSDomain]) Double.malformed);
    reflexivity.
Defined.

(** A call that returned a nil error, traced back to its exchange. *)
Lemma call_succeeds_only_on_accepted_envelope_witness :
  exists resp n body env pl,
    precondition (OpGetDomain "d1") = None
    /\ Double.acceptURL
         (Request.URL (requestOf GoURL.Encode (Double.client 200) (OpGetDomain "d1")))
       = None
    /\ Do (hc (Double.client 200)) tt
          (requestOf GoURL.Encode (Double.client 200) (OpGetDomain "d1"))
          (net Double.start) = (inl resp, n)
    /\ Response.Body resp = inl body
    /\ @decoded unit (Double.decodeEnvelope Double.accepted)
         (Double.decodeDomains Double.accepted)
         (Double.decodeDomain Double.accepted)
         (Double.decodeDNSDomains Double.accepted) (OpGetDomain "d1") body
       = (env, pl, None)
    /\ hoverResp.Succeeded env = true
    /\ Double.callWith Double.accepted 200 (OpGetDomain "d1")
       = ((pl, None),
          after Double.start
            (requestOf GoURL.Encode (Double.client 200) (OpGetDomain "d1")) n).
Proof.
  apply (call_succeeds_only_on_accepted_envelope
           unit unit unit Double.acceptURL GoURL.Encode
           (U_hoverResp := Double.decodeEnvelope Double.accepted)
           (U_domainsResp := Double.decodeDomains Double.accepted)
           (U_domainResp := Double.decodeDomain Double.accepted)
           (U_dnsDomainsResp := Double.decodeDNSDomains Double.accepted)
           (Double.client 200) tt (OpGetDomain "d1") Double.start).
  reflexivity.
Defined.

(** The domainID d1/dns under GetDomain and d1 under GetDNSDomains. *)
Lemma GetDomain_path_is_not_escaped_witness :
  sent (snd (GetDomain Double.acceptURL
               (U_domainResp := Double.decodeDomain Double.accepted)
               (Double.client 200) tt "d1/dns" Double.start))
  = sent (snd (GetDNSDomains Double.acceptURL
                 (U_dnsDomainsResp := Double.decodeDNSDomains Double.accepted)
                 (Double.client 200) tt "d1" Double.start)).
Proof.
  apply (GetDomain_path_is_not_escaped
           unit unit unit Double.acceptURL
           (U_domainResp := Double.decodeDomain Double.accepted)
           (U_dnsDomainsResp := Double.decodeDNSDomains Double.accepted)
           (Double.client 200) tt "d1" Double.start).
  discriminate.
Defined.

(** A TTL of 900.999999999 seconds and one of 900 seconds. *)
Lemma AddDNSRecord_drops_fraction_witness :
  AddDNSRecord Double.acceptURL GoURL.Encode
    (U_hoverResp := Double.decodeEnvelope Double.accepted)
    (Double.client 200) tt "d1"
    (Double.txtRecord (900 * GoTime.Second + 999999999)) Double.start
  = AddDNSRecord Double.acceptURL GoURL.Encode
      (U_hoverResp := Double.decodeEnvelope Double.accepted)
      (Double.client 200) tt "d1"
      (Double.txtRecord (900 * GoTime.Second)) Double.start.
Proof.
  apply (AddDNSRecord_drops_fraction_of_second
           unit unit Double.acceptURL GoURL.Encode
           (U_hoverResp := Double.decodeEnvelope Double.accepted)
           (Double.client 200) tt "d1" TXT "_acme-challenge" "cool stuff"
           900 999999999 Double.start);
    unfold GoTime.Second; lia.
Defined.


(** A login against a transport that cannot connect. *)
Lemma Login_returns_transport_error_witness :
  Login Double.acceptURL GoURL.Encode tt
    (Double.fixedTransport (inr Double.unreachable)) "user" "secret" Double.start
  = ((None, Some Double.unreachable),
     after Double.start
       {| Request.Method := "GET";
          Request.URL :=
            "https://www.hover.com/api/login?password=secret&username=user";
          Request.Cookies := [] |} tt).
Proof.
  apply (Login_returns_transport_error
           unit unit Double.acceptURL GoURL.Encode tt
           (Double.fixedTransport (inr Double.unreachable))
           "user" "secret" Double.start Double.unreachable tt);
    reflexivity.
Defined.

(** A response with four cookies, the third being the first authentic
    one. *)
Lemma Login_returns_first_authentic_cookie_witness :
  fst (Double.loginWith 200
         (Double.jarBefore ++ Double.loginCookie :: Double.jarAfter))
  = (Some Double.loginCookie, None).
Proof.
  apply (Login_returns_first_authentic_cookie
           unit unit Double.acceptURL GoURL.Encode tt
           (Double.fixedTransport
              (inl (Double.loginAnswer 200
                      (Double.jarBefore ++ Double.loginCookie :: Double.jarAfter))))
           "user" "secret" Double.start
           (Double.loginAnswer 200
              (Double.jarBefore ++ Double.loginCookie :: Double.jarAfter))
           tt Double.jarBefore Double.jarAfter Double.loginCookie);
    try reflexivity.
  - intros x [<-|[<-|[]]]; [left; discriminate|now right].
  - discriminate.
Defined.

(** A login followed by DeleteDNSRecord on the client made from its
    cookie. *)
Lemma Login_cookie_is_attached_witness :
  let w1 := snd (Double.loginWith 200 [Double.loginCookie]) in
  let w2 :=
    snd (@call unit unit unit Double.acceptURL GoURL.Encode
           (Double.decodeEnvelope Double.accepted)
           (Double.decodeDomains Double.accepted)
           (Double.decodeDomain Double.accepted)
           (Double.decodeDNSDomains Double.accepted)
           (NewClient
              (Double.fixedTransport
                 (inl {| Response.StatusCode := 200;
                         Response.Cookies := [Double.loginCookie];
                         Response.Body := inl [] |}))
              Double.loginCookie)
           tt (OpDeleteDNSRecord "r1") w1) in
  Cookie.Name Double.loginCookie = "hoverauth"
  /\ Cookie.Value Double.loginCookie <> EmptyString
  /\ (w2 = w1
      \/ exists req,
           sent w2 = sent w1 ++ [req]
           /\ Request.Cookies req = [Double.loginCookie]).
Proof.
  apply (Login_cookie_is_attached_to_every_request
           unit unit unit Double.acceptURL GoURL.Encode
           (U_hoverResp := Double.decodeEnvelope Double.accepted)
           (U_domainsResp := Double.decodeDomains Double.accepted)
           (U_domainResp := Double.decodeDomain Double.accepted)
           (U_dnsDomainsResp := Double.decodeDNSDomains Double.accepted)
           tt (Double.fixedTransport
                 (inl (Double.loginAnswer 200 [Double.loginCookie])))
           "user" "secret" Double.start
           (snd (Double.loginWith 200 [Double.loginCookie]))
           Double.loginCookie tt (OpDeleteDNSRecord "r1")).
  reflexivity.
Defined.

(** ** The example program of the README *)


Section ExampleProperties.

Variables (Context Net : Type).
Variable Quote : string -> string.
Variable url_Parse_err : string -> option string.
Variable Encode : Values -> string.
Context {U_hoverResp : Unmarshal hoverResp.t}
        {U_dnsDomainsResp : Unmarshal dnsDomainsResp}.

Implicit Types (c : Client Context Net) (ctx : Context) (w : World Net).

(** A successful Login has sent its request and returns an authentic
    cookie; it never returns a nil cookie next to a nil error. *)
Lemma Login_success ctx (client : http_Client Context Net)
  (username password : string) w (cook : option Cookie.t) w1 :
  Login url_Parse_err Encode ctx client username password w
  = ((cook, None), w1) ->
  exists ck,
    cook = Some ck /\ authentic ck = true
    /\ sent w1
       = sent w ++ [{| Request.Method := "GET";
                       Request.URL :=
                         (defaultURL ++ "/login?"
                          ++ Encode [("username", username);
                                     ("password", password)])%string;
                       Request.Cookies := [] |}].
Proof.
  rewrite (Login_stages Context Net url_Parse_err Encode).
  destruct (url_Parse_err _); [discriminate|].
  destruct (Do client _ _ _) as [[r|e] n]; [|discriminate].
  destruct (negb _); [discriminate|].
  destruct (find authentic (Response.Cookies r)) as [ck|] eqn:Hfind;
    [|discriminate].
  intros H. injection H as <- <-. exists ck.
  apply find_some in Hfind. now destruct Hfind.
Qed.




(** The example program dereferences a nil pointer in one case only: the
    login and the listing succeeded and the list holds a nil entry before
    any domain named example.com.  No record is added then. *)
Theorem main_panics_only_on_nil_entry
  (DefaultClient : http_Client Context Net) (ctx1 ctx2 ctx3 : Context)
  (username password : string) w :
  fst (main Quote url_Parse_err Encode DefaultClient ctx1 ctx2 ctx3
         username password w) = NilPointerDereference ->
  exists (ck : Cookie.t) w1 (doms : list (option DNSDomain.t)) w2,
    Login url_Parse_err Encode ctx1 DefaultClient username password w
    = ((Some ck, None), w1)
    /\ DNS url_Parse_err (NewClient DefaultClient ck) ctx2 w1
       = ((doms, None), w2)
    /\ search "example.com" doms = NilEntry
    /\ snd (main Quote url_Parse_err Encode DefaultClient ctx1 ctx2 ctx3
              username password w) = w2.
Proof.
  unfold main.
  destruct (Login _ _ _ _ _ _ _) as [[cook [e|]] w1] eqn:HL; [discriminate|].
  destruct (Login_success _ _ _ _ _ _ _ HL) as (ck & -> & _ & _).
  destruct (DNS _ _ _ _) as [[doms [e|]] w2] eqn:HD; [discriminate|].
  destruct (search "example.com" doms) as [d| |] eqn:HS.
  - destruct (AddDNSRecord _ _ _ _ _ _ _) as [[e|] w3]; discriminate.
  - discriminate.
  - intros _. now exists ck, w1, doms, w2.
Qed.

End ExampleProperties.


(** The example program against a server whose list of domains starts
    with a null. *)
Lemma main_panics_witness :
  let client :=
    Double.fixedTransport (inl (Double.loginAnswer 200 [Double.loginCookie])) in
  let run :=
    main GoStrconv.Quote Double.acceptURL GoURL.Encode
      (U_hoverResp := Double.decodeEnvelope Double.accepted)
      (U_dnsDomainsResp := Double.decodeNullFirst)
      client tt tt tt "user" "secret" Double.start in
  fst run = NilPointerDereference
  /\ exists (ck : Cookie.t) w1 (doms : list (option DNSDomain.t)) w2,
       Login Double.acceptURL GoURL.Encode tt client "user" "secret" Double.start
       = ((Some ck, None), w1)
       /\ DNS Double.acceptURL (U_dnsDomainsResp := Double.decodeNullFirst)
            (NewClient client ck) tt w1
          = ((doms, None), w2)
       /\ search "example.com" doms = NilEntry
       /\ snd run = w2.
Proof.
  intros client run. split; [reflexivity|].
  apply (main_panics_only_on_nil_entry
           unit unit GoStrconv.Quote Double.acceptURL GoURL.Encode
           (U_hoverResp := Double.decodeEnvelope Double.accepted)
           (U_dnsDomainsResp := Double.decodeNullFirst)
           client tt tt tt "user" "secret" Double.start).
  reflexivity.
Defined.
